(** * The AI service of n8n: backend selection and request adaptation

    A shallow embedding of the class [AiService] and of [AiAssistantConfig]
    (@n8n/config/src/configs/ai-assistant.config.ts).

    The service is a class with three private fields and five asynchronous
    methods.  The embedding keeps that shape:

    - JavaScript values that cross the service (request payloads, response
      bodies, console arguments) are terms of [JsValue]; the operators the
      service applies to them ([||], [&&], [?.], template literals,
      [JSON.parse], [JSON.stringify]) are functions on [JsValue];
    - the three fields are the record [AiService]; a method is a function of
      the monad [M], which threads the fields, the console and the list of
      calls made to the collaborators, and which carries a thrown error
      without losing the state written before the throw;
    - the collaborators that are not part of the service (the licence
      service, the process configuration and environment, the HTTP backend
      and the vendor SDK) are the fields of the record [World]. *)

From Stdlib Require Import String Ascii ZArith List Floats Bool Lia DecimalString.
Import ListNotations.

#[local] Open Scope string_scope.
#[local] Open Scope Z_scope.

Set Warnings "-register-all".

(** ** Strings

    A JavaScript string is modelled by the sequence of its bytes in UTF-8. *)

Definition dquote : string := String "034"%char EmptyString.
Definition newline : string := String "010"%char EmptyString.

Fixpoint string_of_chars (l : list ascii) : string :=
  match l with
  | [] => EmptyString
  | c :: l' => String c (string_of_chars l')
  end.

Fixpoint is_infix (needle hay : string) : bool :=
  String.prefix needle hay
  || match hay with
     | EmptyString => false
     | String _ hay' => is_infix needle hay'
     end.

(** [s.includes(t)] *)
Definition includes (hay needle : string) : bool := is_infix needle hay.

Definition nonempty (s : string) : bool :=
  match s with EmptyString => false | String _ _ => true end.

(** ** Numbers

    A JavaScript number is an IEEE 754 binary64 value: a primitive [float].
    The two conversions the service relies on are the reading of a decimal
    literal (inside [JSON.parse]) and [Number::toString] (inside template
    literals and [JSON.stringify]). *)

Module Number.

Definition prec : Z := 53.
Definition emax : Z := 1024.

Definition signed_zero (neg : bool) : float := if neg then (-0)%float else 0%float.
Definition signed_inf (neg : bool) : float := if neg then neg_infinity else infinity.

(** [m * 2^e], rounded to the nearest double, ties to even. *)
Definition round (neg : bool) (m e : Z) : float :=
  SF2Prim (binary_normalize prec emax (if neg then - m else m) e neg).

(** The double nearest to [m * 10^e], for [m] the absolute value and [neg]
    the sign.  For a negative [e] the quotient is computed with 64 bits more
    than the divisor has, and a sticky bit records an inexact division, so
    that the final rounding sees on which side of a midpoint the exact value
    lies.  The two guards only avoid building powers of ten far outside the
    range of a double. *)
Definition of_decimal (neg : bool) (m e : Z) : float :=
  if m <=? 0 then signed_zero neg
  else if 0 <=? e then
    if 1100 <? Z.log2 m + 3 * e then signed_inf neg
    else round neg (m * 10 ^ e) 0
  else
    if Z.log2 m + 1 + 3 * e <? -1100 then signed_zero neg
    else if 1100 <? Z.log2 m + 4 * e then signed_inf neg
    else
      let d := 10 ^ (- e) in
      let k := Z.max 0 (64 + Z.log2_up d - Z.log2 m) in
      let q := (m * 2 ^ k) / d in
      let r := (m * 2 ^ k) mod d in
      round neg (2 * q + (if r =? 0 then 0 else 1)) (- k - 1).

Definition of_Z (n : Z) : float := of_decimal (n <? 0) (Z.abs n) 0.

Definition digits_of (n : Z) : string := NilZero.string_of_uint (N.to_uint (Z.to_N n)).

(** [num / den < 10^n] *)
Definition below_pow10 (num den n : Z) : bool :=
  if 0 <=? n then num <? 10 ^ n * den else num * 10 ^ (- n) <? den.

Fixpoint first_above (fuel : nat) (num den n : Z) : Z :=
  match fuel with
  | O => n
  | S fuel' => if below_pow10 num den n then n else first_above fuel' num den (n + 1)
  end.

(** The [n] with [10^(n-1) <= num/den < 10^n]; the binary logarithms place it
    within two of the first guess. *)
Definition magnitude (num den : Z) : Z :=
  first_above 6 num den ((Z.log2 num - Z.log2 den) * 30103 / 100000 - 1).

Definition scaled (num den p : Z) : Z * Z :=
  if 0 <=? p then (num, den * 10 ^ p) else (num * 10 ^ (- p), den).

(** The [k]-digit decimals next to [num/den] on either side; one is kept when
    it reads back as [x], the nearer of the two when both do. *)
Definition candidate (x : float) (num den n k : Z) : option (Z * Z) :=
  let '(a, b) := scaled num den (n - k) in
  let lo := a / b in
  let hi := lo + 1 in
  let ok s := PrimFloat.eqb (of_decimal false s (n - k)) x in
  let twice := 2 * (a mod b) in
  let lo_first := (twice <? b) || ((twice =? b) && Z.even lo) in
  let pick s := if s =? 10 ^ k then Some (10 ^ (k - 1), n + 1) else Some (s, n) in
  match ok lo, ok hi with
  | true, true => if lo_first then pick lo else pick hi
  | true, false => pick lo
  | false, true => pick hi
  | false, false => None
  end.

(** The fewest digits [s] (there are [k] of them) with [s * 10^(n-k)] reading
    back as [x]: step 5 of Number::toString.  Seventeen digits always do. *)
Fixpoint shortest (fuel : nat) (x : float) (num den n k : Z) : Z * Z * Z :=
  match fuel with
  | O => (0, n, k)
  | S fuel' =>
      match candidate x num den n k with
      | Some (s, n') => (s, n', k)
      | None => shortest fuel' x num den n (k + 1)
      end
  end.

Fixpoint zeros (n : nat) : string :=
  match n with O => EmptyString | S n' => String "0" (zeros n') end.

(** Steps 6 to 10 of Number::toString. *)
Definition layout (s n k : Z) : string :=
  let ds := digits_of s in
  if (k <=? n) && (n <=? 21) then ds ++ zeros (Z.to_nat (n - k))
  else if (0 <? n) && (n <=? 21) then
    substring 0 (Z.to_nat n) ds ++ "." ++ substring (Z.to_nat n) (Z.to_nat (k - n)) ds
  else if (-6 <? n) && (n <=? 0) then "0." ++ zeros (Z.to_nat (- n)) ++ ds
  else
    let e := n - 1 in
    let es := (if 0 <=? e then "+" else "-") ++ digits_of (Z.abs e) in
    if k =? 1 then ds ++ "e" ++ es
    else substring 0 1 ds ++ "." ++ substring 1 (Z.to_nat (k - 1)) ds ++ "e" ++ es.

Definition to_string (x : float) : string :=
  match Prim2SF x with
  | S754_nan => "NaN"
  | S754_zero _ => "0"
  | S754_infinity neg => if neg then "-Infinity" else "Infinity"
  | S754_finite neg m e =>
      let num := if 0 <=? e then Z.pos m * 2 ^ e else Z.pos m in
      let den := if 0 <=? e then 1 else 2 ^ (- e) in
      let '(s, n, k) := shortest 17 (PrimFloat.abs x) num den (magnitude num den) 1 in
      (if neg then "-" else "") ++ layout s n k
  end.

(** A number is falsy when it is a zero or NaN. *)
Definition truthy (x : float) : bool :=
  negb (PrimFloat.is_zero x || PrimFloat.is_nan x).

End Number.

(** ** Values *)

Inductive JsValue : Type :=
| JUndefined
| JNull
| JBool (b : bool)
| JNum (x : float)
| JStr (s : string)
| JArr (elems : list JsValue)
| JObj (props : list (string * JsValue)).

(** The own properties of a plain object, in the order in which the object
    enumerates them. *)
Definition JsObject : Type := list (string * JsValue).

Definition JInt (n : Z) : JsValue := JNum (Number.of_Z n).

Module Js.

Definition nullish (v : JsValue) : bool :=
  match v with JUndefined | JNull => true | _ => false end.

(** ToBoolean *)
Definition truthy (v : JsValue) : bool :=
  match v with
  | JUndefined | JNull => false
  | JBool b => b
  | JNum x => Number.truthy x
  | JStr s => nonempty s
  | JArr _ | JObj _ => true
  end.

(** [a || b] on values already evaluated; every right operand of [||] in the
    service is free of effects. *)
Definition or (a b : JsValue) : JsValue := if truthy a then a else b.

Fixpoint lookup (k : string) (props : JsObject) : option JsValue :=
  match props with
  | [] => None
  | (k', v) :: rest => if String.eqb k k' then Some v else lookup k rest
  end.

Definition has (k : string) (props : JsObject) : bool :=
  match lookup k props with Some _ => true | None => false end.

Definition is_digit (c : ascii) : bool :=
  let n := N_of_ascii c in (48 <=? n)%N && (n <=? 57)%N.

Fixpoint all_digits (s : string) : bool :=
  match s with
  | EmptyString => true
  | String c s' => is_digit c && all_digits s'
  end.

Fixpoint digits_value (acc : Z) (s : string) : Z :=
  match s with
  | EmptyString => acc
  | String c s' => digits_value (10 * acc + (Z.of_N (N_of_ascii c) - 48)) s'
  end.

(** An array index: a canonical numeric string below 2^32 - 1. *)
Definition array_index (k : string) : option Z :=
  match k with
  | EmptyString => None
  | String c rest =>
      if all_digits k && (negb (Ascii.eqb c "0") || negb (nonempty rest)) then
        let n := digits_value 0 k in
        if n <? 4294967295 then Some n else None
      else None
  end.

Definition of_option (o : option JsValue) : JsValue :=
  match o with Some v => v | None => JUndefined end.

(** [v[k]] for a [v] that is neither [undefined] nor [null].  Values are
    data: the members inherited from the built-in prototypes are not values
    of [JsValue], and none of the names the service reads is one of them. *)
Definition get (v : JsValue) (k : string) : JsValue :=
  match v with
  | JObj props => of_option (lookup k props)
  | JArr elems =>
      if String.eqb k "length" then JInt (Z.of_nat (List.length elems))
      else match array_index k with
           | Some i => of_option (nth_error elems (Z.to_nat i))
           | None => JUndefined
           end
  | JStr s =>
      if String.eqb k "length" then JInt (Z.of_nat (String.length s))
      else match array_index k with
           | Some i =>
               match String.get (Z.to_nat i) s with
               | Some c => JStr (String c EmptyString)
               | None => JUndefined
               end
           | None => JUndefined
           end
  | _ => JUndefined
  end.

(** [v?.k] *)
Definition opt (v : JsValue) (k : string) : JsValue :=
  if nullish v then JUndefined else get v k.

Definition join (sep : string) (l : list string) : string :=
  match l with
  | [] => EmptyString
  | s :: rest => fold_left (fun acc t => acc ++ sep ++ t) rest s
  end.

Fixpoint sequence {A} (l : list (option A)) : option (list A) :=
  match l with
  | [] => Some []
  | None :: _ => None
  | Some a :: rest =>
      match sequence rest with Some r => Some (a :: r) | None => None end
  end.

(** ToString.  [None] is the TypeError of OrdinaryToPrimitive: an own
    property [toString] of a plain object shadows [Object.prototype.toString]
    and, being data, is not callable; [valueOf] then yields the object
    itself. *)
Fixpoint to_string (v : JsValue) : option string :=
  match v with
  | JUndefined => Some "undefined"
  | JNull => Some "null"
  | JBool b => Some (if b then "true" else "false")
  | JNum x => Some (Number.to_string x)
  | JStr s => Some s
  | JArr elems =>
      option_map (join ",")
        (sequence (map (fun e => if nullish e then Some EmptyString else to_string e) elems))
  | JObj props => if has "toString" props then None else Some "[object Object]"
  end.

End Js.

(** ** JSON *)

Module JSON.

(** *** [JSON.parse]

    The text is cut into tokens by a machine that reads one byte at a time,
    and the tokens are assembled by a machine with an explicit stack of the
    arrays and objects still open; both are structural on their input. *)

Inductive Token : Type :=
| TLBrace | TRBrace | TLBracket | TRBracket | TColon | TComma
| TStr (s : string)
| TNum (x : float)
| TTrue | TFalse | TNull.

Fixpoint span_digits (s : string) : string * string :=
  match s with
  | String c rest =>
      if Js.is_digit c then let (d, r) := span_digits rest in (String c d, r)
      else (EmptyString, s)
  | EmptyString => (EmptyString, EmptyString)
  end.

Definition leading_zero (s : string) : bool :=
  match s with
  | String "0" (String _ _) => true
  | _ => false
  end.

(** The exponent part: empty, or [e] or [E], an optional sign and digits. *)
Definition exponent_of (s : string) : option Z :=
  match s with
  | EmptyString => Some 0
  | String c rest =>
      if Ascii.eqb c "e" || Ascii.eqb c "E" then
        let '(neg, ds) :=
          match rest with
          | String "-" r => (true, r)
          | String "+" r => (false, r)
          | _ => (false, rest)
          end in
        if nonempty ds && Js.all_digits ds then
          Some (if neg then - Js.digits_value 0 ds else Js.digits_value 0 ds)
        else None
      else None
  end.

(** A number of the JSON grammar, read as the nearest double. *)
Definition number_of_lexeme (s : string) : option float :=
  let '(neg, s1) := match s with String "-" r => (true, r) | _ => (false, s) end in
  let '(ip, s2) := span_digits s1 in
  if negb (nonempty ip) || leading_zero ip then None
  else
    let frac :=
      match s2 with
      | String "." r =>
          let (fp, s3) := span_digits r in
          if nonempty fp then Some (fp, s3) else None
      | _ => Some (EmptyString, s2)
      end in
    match frac with
    | None => None
    | Some (fp, s3) =>
        match exponent_of s3 with
        | None => None
        | Some e =>
            Some (Number.of_decimal neg (Js.digits_value 0 (ip ++ fp))
                    (e - Z.of_nat (String.length fp)))
        end
    end.

Definition byte (n : Z) : ascii := ascii_of_N (Z.to_N n).

(** UTF-8; a surrogate left unpaired is written like any other code unit. *)
Definition utf8 (cp : Z) : list ascii :=
  if cp <? 128 then [byte cp]
  else if cp <? 2048 then [byte (192 + cp / 64); byte (128 + cp mod 64)]
  else if cp <? 65536 then
    [byte (224 + cp / 4096); byte (128 + (cp / 64) mod 64); byte (128 + cp mod 64)]
  else
    [byte (240 + cp / 262144); byte (128 + (cp / 4096) mod 64);
     byte (128 + (cp / 64) mod 64); byte (128 + cp mod 64)].

Definition hex_value (c : ascii) : option Z :=
  let n := Z.of_N (N_of_ascii c) in
  if (48 <=? n) && (n <=? 57) then Some (n - 48)
  else if (65 <=? n) && (n <=? 70) then Some (n - 55)
  else if (97 <=? n) && (n <=? 102) then Some (n - 87)
  else None.

Definition is_space (c : ascii) : bool :=
  let n := N_of_ascii c in ((n =? 32) || (n =? 9) || (n =? 10) || (n =? 13))%N.

(** The bytes of literal names and numbers. *)
Definition is_word (c : ascii) : bool :=
  let n := Z.of_N (N_of_ascii c) in
  ((48 <=? n) && (n <=? 57)) || ((65 <=? n) && (n <=? 90)) || ((97 <=? n) && (n <=? 122))
  || (n =? 43) || (n =? 45) || (n =? 46).

Inductive Lex : Type :=
| LTop
| LWord (w : list ascii)
| LStr (acc : list ascii) (hi : option Z)
| LEsc (acc : list ascii) (hi : option Z)
| LHex (acc : list ascii) (hi : option Z) (n : nat) (v : Z).

(** Bytes are accumulated in reverse. *)
Definition push (cp : Z) (acc : list ascii) : list ascii := (rev (utf8 cp) ++ acc)%list.

Definition flush (hi : option Z) (acc : list ascii) : list ascii :=
  match hi with Some h => push h acc | None => acc end.

Definition token_of_word (w : list ascii) : option Token :=
  let s := string_of_chars (rev w) in
  if String.eqb s "true" then Some TTrue
  else if String.eqb s "false" then Some TFalse
  else if String.eqb s "null" then Some TNull
  else option_map TNum (number_of_lexeme s).

Definition lex_top (toks : list Token) (c : ascii) : option (Lex * list Token) :=
  if is_space c then Some (LTop, toks)
  else if Ascii.eqb c "{" then Some (LTop, TLBrace :: toks)
  else if Ascii.eqb c "}" then Some (LTop, TRBrace :: toks)
  else if Ascii.eqb c "[" then Some (LTop, TLBracket :: toks)
  else if Ascii.eqb c "]" then Some (LTop, TRBracket :: toks)
  else if Ascii.eqb c ":" then Some (LTop, TColon :: toks)
  else if Ascii.eqb c "," then Some (LTop, TComma :: toks)
  else if Ascii.eqb c "034" then Some (LStr [] None, toks)
  else if is_word c then Some (LWord [c], toks)
  else None.

Definition escape_code (c : ascii) : option Z :=
  if Ascii.eqb c "034" then Some 34
  else if Ascii.eqb c "\" then Some 92
  else if Ascii.eqb c "/" then Some 47
  else if Ascii.eqb c "b" then Some 8
  else if Ascii.eqb c "f" then Some 12
  else if Ascii.eqb c "n" then Some 10
  else if Ascii.eqb c "r" then Some 13
  else if Ascii.eqb c "t" then Some 9
  else None.

Definition lex_step (st : Lex) (toks : list Token) (c : ascii) : option (Lex * list Token) :=
  match st with
  | LTop => lex_top toks c
  | LWord w =>
      if is_word c then Some (LWord (c :: w), toks)
      else match token_of_word w with
           | Some t => lex_top (t :: toks) c
           | None => None
           end
  | LStr acc hi =>
      if Ascii.eqb c "034" then Some (LTop, TStr (string_of_chars (rev (flush hi acc))) :: toks)
      else if Ascii.eqb c "\" then Some (LEsc acc hi, toks)
      else if (N_of_ascii c <? 32)%N then None
      else Some (LStr (c :: flush hi acc) None, toks)
  | LEsc acc hi =>
      if Ascii.eqb c "u" then Some (LHex acc hi 0 0, toks)
      else match escape_code c with
           | Some cp => Some (LStr (push cp (flush hi acc)) None, toks)
           | None => None
           end
  | LHex acc hi n v =>
      match hex_value c with
      | None => None
      | Some d =>
          let v' := 16 * v + d in
          match n with
          | 3%nat =>
              let low := (56320 <=? v') && (v' <=? 57343) in
              let high := (55296 <=? v') && (v' <=? 56319) in
              match hi with
              | Some h =>
                  if low then
                    Some (LStr (push (65536 + (h - 55296) * 1024 + (v' - 56320)) acc) None, toks)
                  else if high then Some (LStr (push h acc) (Some v'), toks)
                  else Some (LStr (push v' (push h acc)) None, toks)
              | None =>
                  if high then Some (LStr acc (Some v'), toks)
                  else Some (LStr (push v' acc) None, toks)
              end
          | _ => Some (LHex acc hi (S n) v', toks)
          end
      end
  end.

Fixpoint lex (st : Lex) (toks : list Token) (s : string) : option (list Token) :=
  match s with
  | String c rest =>
      match lex_step st toks c with
      | Some (st', toks') => lex st' toks' rest
      | None => None
      end
  | EmptyString =>
      match st with
      | LTop => Some (rev toks)
      | LWord w => option_map (fun t => rev (t :: toks)) (token_of_word w)
      | _ => None
      end
  end.

Definition tokens (s : string) : option (list Token) := lex LTop [] s.

Fixpoint replace (k : string) (v : JsValue) (props : JsObject) : JsObject :=
  match props with
  | [] => []
  | (k', v') :: rest =>
      if String.eqb k k' then (k, v) :: rest else (k', v') :: replace k v rest
  end.

Fixpoint insert_index (i : Z) (k : string) (v : JsValue) (props : JsObject) : JsObject :=
  match props with
  | [] => [(k, v)]
  | (k', v') :: rest =>
      match Js.array_index k' with
      | Some j => if j <? i then (k', v') :: insert_index i k v rest else (k, v) :: props
      | None => (k, v) :: props
      end
  end.

(** CreateDataProperty on an ordinary object: a key already present keeps
    its place and takes the new value; a new array index is enumerated among
    the indices, in ascending order and before the other keys; any other new
    key comes last. *)
Definition define (k : string) (v : JsValue) (props : JsObject) : JsObject :=
  if Js.has k props then replace k v props
  else match Js.array_index k with
       | Some i => insert_index i k v props
       | None => (props ++ [(k, v)])%list
       end.

Inductive Frame : Type :=
| FArr (done : list JsValue)
| FObj (props : JsObject) (key : string).

Inductive Mode : Type :=
| MValue (may_close : bool)
| MKey (props : JsObject) (may_close : bool)
| MColon (props : JsObject) (key : string)
| MAfter (v : JsValue).

Definition parse_step (stack : list Frame) (m : Mode) (t : Token)
  : option (list Frame * Mode) :=
  match m with
  | MValue may_close =>
      match t with
      | TStr s => Some (stack, MAfter (JStr s))
      | TNum x => Some (stack, MAfter (JNum x))
      | TTrue => Some (stack, MAfter (JBool true))
      | TFalse => Some (stack, MAfter (JBool false))
      | TNull => Some (stack, MAfter JNull)
      | TLBracket => Some (FArr [] :: stack, MValue true)
      | TLBrace => Some (stack, MKey [] true)
      | TRBracket =>
          match may_close, stack with
          | true, FArr _ :: stack' => Some (stack', MAfter (JArr []))
          | _, _ => None
          end
      | _ => None
      end
  | MKey props may_close =>
      match t with
      | TStr k => Some (stack, MColon props k)
      | TRBrace => if may_close then Some (stack, MAfter (JObj props)) else None
      | _ => None
      end
  | MColon props k =>
      match t with
      | TColon => Some (FObj props k :: stack, MValue false)
      | _ => None
      end
  | MAfter v =>
      match stack, t with
      | FArr done :: stack', TComma => Some (FArr (v :: done) :: stack', MValue false)
      | FArr done :: stack', TRBracket => Some (stack', MAfter (JArr (rev (v :: done))))
      | FObj props k :: stack', TComma => Some (stack', MKey (define k v props) false)
      | FObj props k :: stack', TRBrace => Some (stack', MAfter (JObj (define k v props)))
      | _, _ => None
      end
  end.

Fixpoint assemble (stack : list Frame) (m : Mode) (toks : list Token) : option JsValue :=
  match toks with
  | t :: rest =>
      match parse_step stack m t with
      | Some (stack', m') => assemble stack' m' rest
      | None => None
      end
  | [] =>
      match stack, m with
      | [], MAfter v => Some v
      | _, _ => None
      end
  end.

(** [JSON.parse(text)]; [None] is the SyntaxError. *)
Definition parse (text : string) : option JsValue :=
  match tokens text with
  | Some toks => assemble [] (MValue false) toks
  | None => None
  end.

(** *** [JSON.stringify] *)

Definition hex_digit (n : Z) : ascii :=
  if n <? 10 then byte (48 + n) else byte (87 + n).

Definition quote_char (c : ascii) : string :=
  let n := Z.of_N (N_of_ascii c) in
  if n =? 34 then "\" ++ dquote
  else if n =? 92 then "\\"
  else if n =? 8 then "\b"
  else if n =? 12 then "\f"
  else if n =? 10 then "\n"
  else if n =? 13 then "\r"
  else if n =? 9 then "\t"
  else if n <? 32 then "\u00" ++ String (hex_digit (n / 16)) (String (hex_digit (n mod 16)) EmptyString)
  else String c EmptyString.

Fixpoint quote_body (s : string) : string :=
  match s with
  | EmptyString => EmptyString
  | String c rest => quote_char c ++ quote_body rest
  end.

(** QuoteJSONString *)
Definition quote (s : string) : string := dquote ++ quote_body s ++ dquote.

Definition finite (x : float) : bool :=
  match Prim2SF x with
  | S754_nan | S754_infinity _ => false
  | _ => true
  end.

Definition or_null (o : option string) : string :=
  match o with Some s => s | None => "null" end.

(** SerializeJSONProperty, with the gap [gap] and the current indentation
    [indent]; [None] is [undefined].  Values are data, so no [toJSON] is
    callable. *)
Fixpoint serialize (gap indent : string) (v : JsValue) : option string :=
  let inner := indent ++ gap in
  let wrap (opening closing : string) (items : list string) : string :=
    match items with
    | [] => opening ++ closing
    | _ =>
        if nonempty gap then
          opening ++ newline ++ inner ++ Js.join ("," ++ newline ++ inner) items
          ++ newline ++ indent ++ closing
        else opening ++ Js.join "," items ++ closing
    end in
  match v with
  | JUndefined => None
  | JNull => Some "null"
  | JBool b => Some (if b then "true" else "false")
  | JNum x => Some (if finite x then Number.to_string x else "null")
  | JStr s => Some (quote s)
  | JArr elems => Some (wrap "[" "]" (map (fun e => or_null (serialize gap inner e)) elems))
  | JObj props =>
      Some (wrap "{" "}"
              (flat_map
                 (fun kv =>
                    match serialize gap inner (snd kv) with
                    | Some s => [quote (fst kv) ++ (if nonempty gap then ": " else ":") ++ s]
                    | None => []
                    end) props))
  end.

(** [JSON.stringify(v)] *)
Definition stringify (v : JsValue) : option string := serialize EmptyString EmptyString v.

(** [JSON.stringify(v, null, 2)] *)
Definition stringify_pretty (v : JsValue) : option string := serialize "  " EmptyString v.

End JSON.

(** ** The collaborators *)

(** [AiAssistantConfig]: three strings, each empty unless the environment
    variable named by its [@Env] decorator sets it when the configuration is
    loaded. *)
Module AiAssistantConfig.

Record t : Type := {
  baseUrl : string; (* N8N_AI_ASSISTANT_BASE_URL *)
  apiKey : string;  (* N8N_AI_ASSISTANT_API_KEY *)
  model : string    (* N8N_AI_MODEL *)
}.

Definition defaults : t :=
  {| baseUrl := EmptyString; apiKey := EmptyString; model := EmptyString |}.

Definition to_value (c : t) : JsValue :=
  JObj [("baseUrl", JStr (baseUrl c)); ("apiKey", JStr (apiKey c)); ("model", JStr (model c))].

End AiAssistantConfig.

(** The part of [GlobalConfig] the service reads. *)
Record GlobalConfig : Type := {
  aiAssistant : AiAssistantConfig.t;
  logging_level : string
}.

(** The licence service, by the results of the three methods the service
    calls; [loadCertStr] is awaited and resolves to a string. *)
Record License : Type := {
  isAiAssistantEnabled : bool;
  loadCertStr : string;
  getConsumerId : string
}.

(** The options [init] passes to [new AiAssistantClient]; a client is
    identified by the options it was built from. *)
Module AiAssistantClient.

Record t : Type := {
  licenseCert : string;
  consumerId : string;
  n8nVersion : string;
  baseUrl : string;
  logLevel : string
}.

Inductive Method : Type := chat | applySuggestion | askAi | generateAiCreditsCredentials.

End AiAssistantClient.

(** The configuration [init] passes to [axios.create]; an instance is
    identified by the configuration it was created with. *)
Module Axios.

Record Config : Type := {
  baseURL : option string;
  headers : list (string * string);
  timeout : Z
}.

Definition Instance : Type := Config.

Record Response : Type := {
  status : float;
  data : JsValue
}.

End Axios.

(** What a method can throw: an [Error] object (of the class [name]), or the
    error with which axios rejects a request, which carries the response when
    the server sent one. *)
Inductive JsError : Type :=
| ErrorObject (name message : string)
| AxiosError (message : string) (response : option Axios.Response).

Definition message_of (e : JsError) : string :=
  match e with
  | ErrorObject _ m => m
  | AxiosError m _ => m
  end.

Definition response_of (e : JsError) : option Axios.Response :=
  match e with
  | ErrorObject _ _ => None
  | AxiosError _ r => r
  end.

Inductive Completion (A : Type) : Type :=
| Return (a : A)
| Throw (e : JsError).

Arguments Return {A} a.
Arguments Throw {A} e.

(** The calls the service makes to the two backends, in the order made. *)
Inductive Call : Type :=
| AxiosCreate (config : Axios.Config)
| NewAiAssistantClient (options : AiAssistantClient.t)
| AxiosPost (instance : Axios.Instance) (url : string) (body : JsValue)
| VendorCall (client : AiAssistantClient.t) (method : AiAssistantClient.Method)
    (args : list JsValue).

(** The texts of the errors that the JavaScript engine raises itself. *)
Record Engine : Type := {
  cannot_read : JsValue -> string -> string; (* reading a property of null or undefined *)
  cannot_convert : string;                   (* an object without a primitive value *)
  invalid_json : string -> string            (* the SyntaxError of JSON.parse *)
}.

(** Everything outside the service.  A backend answers a request knowing the
    calls made before it, so that it may answer the same request differently
    at different times. *)
Record World : Type := {
  licenseService : License;
  globalConfig : GlobalConfig;
  env : string -> option string; (* process.env *)
  N8N_VERSION : string;
  backend : list Call -> Axios.Instance -> string -> JsValue -> Completion Axios.Response;
  sdk : list Call -> AiAssistantClient.t -> AiAssistantClient.Method -> list JsValue
        -> Completion JsValue;
  engine : Engine
}.

(** ** The state and the monad of methods *)

Record AiService : Type := {
  client : option AiAssistantClient.t;
  customHttpClient : option Axios.Instance;
  useCustomEndpoint : bool
}.

(** The fields as their initialisers leave them. *)
Definition fresh : AiService :=
  {| client := None; customHttpClient := None; useCustomEndpoint := false |}.

Inductive Level : Type := to_stdout | to_stderr.

Record State : Type := {
  this : AiService;
  console : list (Level * list JsValue);
  calls : list Call
}.

Definition start : State := {| this := fresh; console := []; calls := [] |}.

Definition M (A : Type) : Type := State -> Completion A * State.

Definition ret {A} (a : A) : M A := fun s => (Return a, s).

Definition throw {A} (e : JsError) : M A := fun s => (Throw e, s).

Definition bind {A B} (c : M A) (f : A -> M B) : M B :=
  fun s =>
    match c s with
    | (Return a, s') => f a s'
    | (Throw e, s') => (Throw e, s')
    end.

(** [try { body } catch (error) { handler }]: the handler starts from the
    state in which the body threw. *)
Definition try_catch {A} (body : M A) (handler : JsError -> M A) : M A :=
  fun s =>
    match body s with
    | (Return a, s') => (Return a, s')
    | (Throw e, s') => handler e s'
    end.

Declare Scope js_scope.
Delimit Scope js_scope with js.
Notation "x <- c1 ;; c2" := (bind c1 (fun x => c2))
  (at level 100, c1 at next level, right associativity) : js_scope.
Notation "c1 ;; c2" := (bind c1 (fun _ => c2))
  (at level 100, right associativity) : js_scope.
#[local] Open Scope js_scope.

Definition get_this : M AiService := fun s => (Return (this s), s).

Definition set_this (f : AiService -> AiService) : M unit :=
  fun s => (Return tt, {| this := f (this s); console := console s; calls := calls s |}).

Definition set_client (c : AiAssistantClient.t) : M unit :=
  set_this (fun t => {| client := Some c;
                        customHttpClient := customHttpClient t;
                        useCustomEndpoint := useCustomEndpoint t |}).

Definition set_customHttpClient (h : Axios.Instance) : M unit :=
  set_this (fun t => {| client := client t;
                        customHttpClient := Some h;
                        useCustomEndpoint := useCustomEndpoint t |}).

Definition set_useCustomEndpoint (b : bool) : M unit :=
  set_this (fun t => {| client := client t;
                        customHttpClient := customHttpClient t;
                        useCustomEndpoint := b |}).

Definition print (l : Level) (args : list JsValue) : M unit :=
  fun s => (Return tt, {| this := this s; console := console s ++ [(l, args)]; calls := calls s |}).

Definition console_log : list JsValue -> M unit := print to_stdout.
Definition console_error : list JsValue -> M unit := print to_stderr.

Definition record (c : Call) (s : State) : State :=
  {| this := this s; console := console s; calls := calls s ++ [c] |}.

(** [axios.create(config)] *)
Definition axios_create (config : Axios.Config) : M Axios.Instance :=
  fun s => (Return config, record (AxiosCreate config) s).

(** [new AiAssistantClient(options)] *)
Definition new_AiAssistantClient (options : AiAssistantClient.t) : M AiAssistantClient.t :=
  fun s => (Return options, record (NewAiAssistantClient options) s).

(** [await instance.post(url, body)] *)
Definition axios_post (w : World) (instance : Axios.Instance) (url : string) (body : JsValue)
  : M Axios.Response :=
  fun s => (backend w (calls s) instance url body, record (AxiosPost instance url body) s).

(** [await client.method(...args)] *)
Definition vendor_call (w : World) (c : AiAssistantClient.t) (m : AiAssistantClient.Method)
    (args : list JsValue) : M JsValue :=
  fun s => (sdk w (calls s) c m args, record (VendorCall c m args) s).

(** Modelled from the spec: [assert] of n8n-workflow, which is not among the
    sources; on a falsy condition it throws an [Error] with the message given
    (an assertion-style error), and otherwise narrows the condition. *)
Definition assert {A} (condition : option A) (msg : string) : M A :=
  match condition with
  | Some a => ret a
  | None => throw (ErrorObject "Error" msg)
  end.

(** ** Operators on [string | undefined] and on values, inside methods *)

Definition truthy_str (o : option string) : bool :=
  match o with Some s => nonempty s | None => false end.

(** [a || b] for a string [a] *)
Definition or_str (a : string) (b : option string) : option string :=
  if nonempty a then Some a else b.

(** [a || d] for a default string [d] *)
Definition or_default (a : option string) (d : string) : string :=
  match a with
  | Some s => if nonempty s then s else d
  | None => d
  end.

(** The string a template literal substitutes for [a]. *)
Definition template_str (a : option string) : string :=
  match a with Some s => s | None => "undefined" end.

Definition value_of_str (a : option string) : JsValue :=
  match a with Some s => JStr s | None => JUndefined end.

Definition type_error {A} (msg : string) : M A := throw (ErrorObject "TypeError" msg).

(** [v.k]: a TypeError when [v] is [undefined] or [null]. *)
Definition member (w : World) (v : JsValue) (k : string) : M JsValue :=
  if Js.nullish v then type_error (cannot_read (engine w) v k) else ret (Js.get v k).

(** The string a template literal substitutes for [v]. *)
Definition template (w : World) (v : JsValue) : M string :=
  match Js.to_string v with
  | Some s => ret s
  | None => type_error (cannot_convert (engine w))
  end.

(** [JSON.parse(v)] *)
Definition JSON_parse (w : World) (v : JsValue) : M JsValue :=
  text <- template w v ;;
  match JSON.parse text with
  | Some r => ret r
  | None => throw (ErrorObject "SyntaxError" (invalid_json (engine w) text))
  end.

(** [!!o] for a field that holds a handle or [undefined] *)
Definition is_some {A} (o : option A) : bool :=
  match o with Some _ => true | None => false end.

(** ** The service *)

Section Service.

Variable w : World.

Let config : AiAssistantConfig.t := aiAssistant (globalConfig w).

(** The three settings as [init] resolves them: the configuration first, the
    environment when the configured string is empty. *)
Definition resolved_baseUrl : option string :=
  or_str (AiAssistantConfig.baseUrl config) (env w "N8N_AI_ASSISTANT_BASE_URL").
Definition resolved_apiKey : option string :=
  or_str (AiAssistantConfig.apiKey config) (env w "N8N_AI_ASSISTANT_API_KEY").
Definition resolved_model : option string :=
  or_str (AiAssistantConfig.model config) (env w "N8N_AI_MODEL").

(** [...(model && { 'X-Model': model })] *)
Definition spread_model (model : option string) : list (string * string) :=
  match model with
  | Some m => if nonempty m then [("X-Model", m)] else []
  | None => []
  end.

Definition custom_config (baseUrl apiKey model : option string) : Axios.Config :=
  {| Axios.baseURL := baseUrl;
     Axios.headers :=
       [("Authorization", "Bearer " ++ template_str apiKey);
        ("Content-Type", "application/json");
        ("User-Agent", "n8n/" ++ N8N_VERSION w)]
       ++ spread_model model;
     Axios.timeout := 30000 |}.

Definition vendor_options (licenseCert consumerId : string) (baseUrl : option string)
    (logLevel : string) : AiAssistantClient.t :=
  {| AiAssistantClient.licenseCert := licenseCert;
     AiAssistantClient.consumerId := consumerId;
     AiAssistantClient.n8nVersion := N8N_VERSION w;
     AiAssistantClient.baseUrl := or_default baseUrl EmptyString;
     AiAssistantClient.logLevel := logLevel |}.

Definition init : M unit :=
  console_log [JStr "🚀 AI Service init() called"] ;;
  let aiAssistantEnabled := isAiAssistantEnabled (licenseService w) in
  console_log [JStr "🔧 AI Assistant enabled:"; JBool aiAssistantEnabled] ;;
  (if negb aiAssistantEnabled then
     console_log
       [JStr "⚠️ AI Assistant not enabled by license, but proceeding anyway for custom endpoint"]
   else ret tt) ;;
  let baseUrl := resolved_baseUrl in
  let apiKey := resolved_apiKey in
  let model := resolved_model in
  console_log [JStr "🔧 AI Service init - baseUrl (config):";
               JStr (AiAssistantConfig.baseUrl config)] ;;
  console_log [JStr "🔧 AI Service init - baseUrl (env):";
               value_of_str (env w "N8N_AI_ASSISTANT_BASE_URL")] ;;
  console_log [JStr "🔧 AI Service init - baseUrl (final):"; value_of_str baseUrl] ;;
  console_log [JStr "🔧 AI Service init - apiKey exists (config):";
               JBool (nonempty (AiAssistantConfig.apiKey config))] ;;
  console_log [JStr "🔧 AI Service init - apiKey exists (env):";
               JBool (truthy_str (env w "N8N_AI_ASSISTANT_API_KEY"))] ;;
  console_log [JStr "🔧 AI Service init - apiKey exists (final):"; JBool (truthy_str apiKey)] ;;
  console_log [JStr "🔧 AI Service init - model (final):"; value_of_str model] ;;
  console_log [JStr "🔧 AI Service init - globalConfig.aiAssistant:";
               AiAssistantConfig.to_value config] ;;
  if truthy_str baseUrl && truthy_str apiKey then
    console_log [JStr "🔧 Configuring custom AI endpoint:"; value_of_str baseUrl] ;;
    console_log [JStr "🔧 Using model:"; JStr (or_default model "Default")] ;;
    set_useCustomEndpoint true ;;
    instance <- axios_create (custom_config baseUrl apiKey model) ;;
    set_customHttpClient instance
  else
    let licenseCert := loadCertStr (licenseService w) in
    let consumerId := getConsumerId (licenseService w) in
    let logLevel := logging_level (globalConfig w) in
    c <- new_AiAssistantClient (vendor_options licenseCert consumerId baseUrl logLevel) ;;
    set_client c.

(** [if (!this.client && !this.customHttpClient) await this.init()] *)
Definition init_unless_any_client : M unit :=
  t <- get_this ;;
  if negb (is_some (client t)) && negb (is_some (customHttpClient t)) then init else ret tt.

(** [this.globalConfig.aiAssistant.model || process.env.N8N_AI_MODEL || 'gpt-3.5-turbo'] *)
Definition request_model : string := or_default resolved_model "gpt-3.5-turbo".

Definition message (role : string) (content : JsValue) : JsValue :=
  JObj [("role", JStr role); ("content", content)].

Definition openAIPayload (messages : list JsValue) (user : JsObject) : JsValue :=
  JObj [("model", JStr request_model);
        ("messages", JArr messages);
        ("stream", JBool false);
        ("user", Js.get (JObj user) "id")].

Definition log_request : M unit :=
  console_log [JStr "🤖 Sending request to custom AI endpoint:";
               JStr (AiAssistantConfig.baseUrl config ++ "/v1/chat/completions")].

(** [aiResponse.choices?.[0]?.message?.content] *)
Definition first_content (aiResponse : JsValue) : M JsValue :=
  choices <- member w aiResponse "choices" ;;
  ret (Js.opt (Js.opt (Js.opt choices "0") "message") "content").

(** [error.response?.status] and [error.response?.data] *)
Definition response_status (e : JsError) : JsValue :=
  match response_of e with Some r => JNum (Axios.status r) | None => JUndefined end.
Definition response_data (e : JsError) : JsValue :=
  match response_of e with Some r => Axios.data r | None => JUndefined end.

(** The [catch] block that the three translated operations share. *)
Definition rethrow {A} (e : JsError) : M A :=
  console_error [JStr "❌ Custom AI endpoint error:";
                 response_status e;
                 Js.or (response_data e) (JStr (message_of e))] ;;
  status <- template w (Js.or (response_status e) (JStr "Unknown")) ;;
  detail <- template w (Js.or (Js.opt (response_data e) "message") (JStr (message_of e))) ;;
  throw (ErrorObject "Error" ("Custom AI service error: " ++ status ++ " - " ++ detail)).

(** [{ id: user.id }] *)
Definition user_ref (user : JsObject) : JsValue := JObj [("id", Js.get (JObj user) "id")].

Definition path : string := "/v1/chat/completions".

Definition chat_request (payload user : JsObject) : JsValue :=
  openAIPayload [message "user" (value_of_str (JSON.stringify (JObj payload)))] user.

Definition applySuggestion_request (payload user : JsObject) : JsValue :=
  openAIPayload
    [message "system"
       (JStr "You are an AI assistant helping to apply code suggestions in n8n workflows. Apply the requested suggestion and return the updated parameters.");
     message "user"
       (JStr ("Apply suggestion: " ++ template_str (JSON.stringify (JObj payload))))]
    user.

Definition askAi_request (question context forNode : string) (user : JsObject) : JsValue :=
  openAIPayload
    [message "system"
       (JStr "You are an AI assistant helping with n8n workflow automation. Answer the user's question about their workflow or code.");
     message "user"
       (JStr ("Question: " ++ question ++ newline ++ newline
              ++ "Context: " ++ context ++ newline ++ newline
              ++ "For node: " ++ forNode))]
    user.

Definition chat_response (sessionId text : JsValue) : JsValue :=
  JObj [("sessionId", sessionId);
        ("messages",
         JArr [JObj [("role", JStr "assistant"); ("type", JStr "message"); ("text", text)]])].

Definition no_response : JsValue := JStr "No response from AI service".

Definition suggestion_response (sessionId parameters : JsValue) : JsValue :=
  JObj [("sessionId", sessionId); ("parameters", parameters)].

Definition ask_response (answer : JsValue) : JsValue :=
  JObj [("answer", answer); ("code", JStr EmptyString)].

Definition chat (payload user : JsObject) : M JsValue :=
  init_unless_any_client ;;
  t <- get_this ;;
  console_log [JStr "🔍 AI Service chat called - useCustomEndpoint:"; JBool (useCustomEndpoint t)] ;;
  console_log [JStr "🔍 customHttpClient exists:"; JBool (is_some (customHttpClient t))] ;;
  console_log [JStr "🔍 client exists:"; JBool (is_some (client t))] ;;
  match useCustomEndpoint t, customHttpClient t with
  | true, Some http =>
      try_catch
        (log_request ;;
         let openAIPayload := chat_request payload user in
         response <- axios_post w http path openAIPayload ;;
         console_log [JStr "✅ Custom AI endpoint response status:";
                      JNum (Axios.status response)] ;;
         let aiResponse := Axios.data response in
         content <- first_content aiResponse ;;
         ret (chat_response (Js.get (JObj payload) "sessionId") (Js.or content no_response)))
        rethrow
  | _, _ =>
      c <- assert (client t) "Assistant client not setup" ;;
      vendor_call w c AiAssistantClient.chat [JObj payload; user_ref user]
  end.

Definition applySuggestion (payload user : JsObject) : M JsValue :=
  init_unless_any_client ;;
  t <- get_this ;;
  match useCustomEndpoint t, customHttpClient t with
  | true, Some http =>
      try_catch
        (log_request ;;
         let openAIPayload := applySuggestion_request payload user in
         response <- axios_post w http path openAIPayload ;;
         console_log [JStr "✅ Custom AI endpoint response status:";
                      JNum (Axios.status response)] ;;
         let aiResponse := Axios.data response in
         content <- first_content aiResponse ;;
         parameters <- JSON_parse w (Js.or content (JStr "{}")) ;;
         ret (suggestion_response (Js.get (JObj payload) "sessionId") parameters))
        rethrow
  | _, _ =>
      c <- assert (client t) "Assistant client not setup" ;;
      vendor_call w c AiAssistantClient.applySuggestion [JObj payload; user_ref user]
  end.

Definition askAi (payload user : JsObject) : M JsValue :=
  init_unless_any_client ;;
  t <- get_this ;;
  match useCustomEndpoint t, customHttpClient t with
  | true, Some http =>
      try_catch
        (log_request ;;
         question <- template w (Js.get (JObj payload) "question") ;;
         let context := template_str (JSON.stringify_pretty (Js.get (JObj payload) "context")) in
         forNode <- template w (Js.get (JObj payload) "forNode") ;;
         let openAIPayload := askAi_request question context forNode user in
         response <- axios_post w http path openAIPayload ;;
         console_log [JStr "✅ Custom AI endpoint response status:";
                      JNum (Axios.status response)] ;;
         let aiResponse := Axios.data response in
         content <- first_content aiResponse ;;
         ret (ask_response (Js.or content no_response)))
        rethrow
  | _, _ =>
      c <- assert (client t) "Assistant client not setup" ;;
      vendor_call w c AiAssistantClient.askAi [JObj payload; user_ref user]
  end.

(** [if (!this.client) await this.init()] *)
Definition init_unless_vendor_client : M unit :=
  t <- get_this ;;
  if negb (is_some (client t)) then init else ret tt.

Definition createFreeAiCredits (user : JsObject) : M JsValue :=
  init_unless_vendor_client ;;
  t <- get_this ;;
  c <- assert (client t) "Assistant client not setup" ;;
  vendor_call w c AiAssistantClient.generateAiCreditsCredentials [JObj user].

End Service.

(** ** Sequences of operations *)

Inductive Operation : Type :=
| Chat (payload user : JsObject)
| ApplySuggestion (payload user : JsObject)
| AskAi (payload user : JsObject)
| CreateFreeAiCredits (user : JsObject).

Definition perform (w : World) (op : Operation) : M JsValue :=
  match op with
  | Chat payload user => chat w payload user
  | ApplySuggestion payload user => applySuggestion w payload user
  | AskAi payload user => askAi w payload user
  | CreateFreeAiCredits user => createFreeAiCredits w user
  end.

(** The state after a sequence of operations, each awaited before the next
    starts, whether it returned or threw. *)
Fixpoint run (w : World) (ops : list Operation) (s : State) : State :=
  match ops with
  | [] => s
  | op :: rest => run w rest (snd (perform w op s))
  end.

(** The states between the operations of a sequence, the first included. *)
Fixpoint visited (w : World) (ops : list Operation) (s : State) : list State :=
  s :: match ops with
       | [] => []
       | op :: rest => visited w rest (snd (perform w op s))
       end.

(** The states of a service that lives under the one configuration [w]. *)
Inductive reachable (w : World) : State -> Prop :=
| reachable_start : reachable w start
| reachable_step s op : reachable w s -> reachable w (snd (perform w op s)).

(** ** Notions of the specification *)

Inductive BackendMode : Type := VendorManaged | DirectEndpoint.

(** The backend to which the three translated operations dispatch: the test
    [this.useCustomEndpoint && this.customHttpClient], then the assertion on
    [this.client]. *)
Definition mode (t : AiService) : option BackendMode :=
  if useCustomEndpoint t && is_some (customHttpClient t) then Some DirectEndpoint
  else if is_some (client t) then Some VendorManaged
  else None.

(** The resolved EndpointConfig is usable: [baseUrl && apiKey]. *)
Definition endpoint_valid (w : World) : bool :=
  truthy_str (resolved_baseUrl w) && truthy_str (resolved_apiKey w).

(** The two handles [init] can build under [w]. *)
Definition direct_client (w : World) : Axios.Instance :=
  custom_config w (resolved_baseUrl w) (resolved_apiKey w) (resolved_model w).

Definition vendor_client (w : World) : AiAssistantClient.t :=
  vendor_options w (loadCertStr (licenseService w)) (getConsumerId (licenseService w))
    (resolved_baseUrl w) (logging_level (globalConfig w)).

(** The fields after [init]. *)
Definition init_fields (w : World) (t : AiService) : AiService :=
  if endpoint_valid w then
    {| client := client t;
       customHttpClient := Some (direct_client w);
       useCustomEndpoint := true |}
  else
    {| client := Some (vendor_client w);
       customHttpClient := customHttpClient t;
       useCustomEndpoint := useCustomEndpoint t |}.

(** The one call [init] makes. *)
Definition init_call (w : World) : Call :=
  if endpoint_valid w then AxiosCreate (direct_client w)
  else NewAiAssistantClient (vendor_client w).

Definition is_construction (c : Call) : bool :=
  match c with
  | AxiosCreate _ | NewAiAssistantClient _ => true
  | _ => false
  end.

(** How many client handles were constructed. *)
Definition constructions (cs : list Call) : nat := List.length (filter is_construction cs).

Definition has_handle (t : AiService) : bool :=
  is_some (client t) || is_some (customHttpClient t).

Definition at_most_one (t : AiService) : bool :=
  negb (is_some (client t) && is_some (customHttpClient t)).

(** The handles present are among those the configuration makes [init]
    build. *)
Definition coherent (w : World) (t : AiService) : bool :=
  (negb (is_some (customHttpClient t)) || endpoint_valid w)
  && (negb (is_some (client t)) || negb (endpoint_valid w)).

Definition is_credits (op : Operation) : bool :=
  match op with CreateFreeAiCredits _ => true | _ => false end.

(** Whether the guard of [op] lets [init] run in a service with fields [t]. *)
Definition guard_open (op : Operation) (t : AiService) : bool :=
  if is_credits op then negb (is_some (client t)) else negb (has_handle t).

Fixpoint header (name : string) (hs : list (string * string)) : option string :=
  match hs with
  | [] => None
  | (n, v) :: rest => if String.eqb name n then Some v else header name rest
  end.

(** [data.choices?.[0]?.message?.content], the content of a response body. *)
Definition content_of (data : JsValue) : JsValue :=
  Js.opt (Js.opt (Js.opt (Js.get data "choices") "0") "message") "content".

(** The world that differs from [w] only in what isAiAssistantEnabled()
    returns. *)
Definition with_entitlement (b : bool) (w : World) : World :=
  {| licenseService :=
       {| isAiAssistantEnabled := b;
          loadCertStr := loadCertStr (licenseService w);
          getConsumerId := getConsumerId (licenseService w) |};
     globalConfig := globalConfig w;
     env := env w;
     N8N_VERSION := N8N_VERSION w;
     backend := backend w;
     sdk := sdk w;
     engine := engine w |}.

(** What it is for an operation, run from [s] with outcome [r], to delegate
    to the method [m] of the vendor client [c] with the arguments [args]:
    the completion of the operation is the completion of that call, whether
    a result or a failure; the call is the only one made; and no field
    changes. *)
Definition delegates (w : World) (s : State) (r : Completion JsValue * State)
    (c : AiAssistantClient.t) (m : AiAssistantClient.Method) (args : list JsValue) : Prop :=
  fst r = sdk w (calls s) c m args
  /\ calls (snd r) = (calls s ++ [VendorCall c m args])%list
  /\ this (snd r) = this s.

(** A computation that writes no field and builds no client. *)
Definition quiet {A} (c : M A) : Prop :=
  forall s,
    this (snd (c s)) = this s
    /\ constructions (calls (snd (c s))) = constructions (calls s).

(** A computation that adds to the record of calls only calls that satisfy
    [P]. *)
Definition emits (P : Call -> Prop) {A} (c : M A) : Prop :=
  forall s, exists l, calls (snd (c s)) = (calls s ++ l)%list /\ Forall P l.

(** The calls a service that lives under [w] is expected to make.  The HTTP
    client is built, and requests are posted, only under a usable endpoint:
    through the client [init] builds, to the one path, with [stream] off and
    the model of the configuration or the default one.  The vendor client is
    built, and its methods are called, only without a usable endpoint, and
    through the client [init] builds. *)
Definition expected_call (w : World) (c : Call) : Prop :=
  match c with
  | AxiosCreate config => endpoint_valid w = true /\ config = direct_client w
  | AxiosPost instance url body =>
      endpoint_valid w = true
      /\ instance = direct_client w
      /\ url = "/v1/chat/completions"
      /\ Js.get body "stream" = JBool false
      /\ Js.get body "model" = JStr (request_model w)
  | NewAiAssistantClient options => endpoint_valid w = false /\ options = vendor_client w
  | VendorCall c _ _ => endpoint_valid w = false /\ c = vendor_client w
  end.

Definition count_credits (ops : list Operation) : nat := List.length (filter is_credits ops).

(** The sequence starts with chat, applySuggestion or askAi. *)
Definition starts_translated (ops : list Operation) : bool :=
  match ops with
  | op :: _ => negb (is_credits op)
  | [] => false
  end.

(** The context of an askAi payload, as its request spells it. *)
Definition context_text (payload : JsObject) : string :=
  template_str (JSON.stringify_pretty (Js.get (JObj payload) "context")).

(** The status a failure is reported with: that of the response when there
    is one and it is not zero, and "Unknown" otherwise. *)
Definition status_text (e : JsError) : string :=
  match response_of e with
  | Some r => if Number.truthy (Axios.status r) then Number.to_string (Axios.status r)
              else "Unknown"
  | None => "Unknown"
  end.

(** The world that differs from [w] only in its environment variables. *)
Definition with_env (e : string -> option string) (w : World) : World :=
  {| licenseService := licenseService w;
     globalConfig := globalConfig w;
     env := e;
     N8N_VERSION := N8N_VERSION w;
     backend := backend w;
     sdk := sdk w;
     engine := engine w |}.

(** The text [{"a":1}]. *)
Definition text_a_1 : string := "{" ++ dquote ++ "a" ++ dquote ++ ":1}".

(** ** Example worlds *)

Module Sample.

Definition v8 : Engine :=
  {| cannot_read := fun _ k => "Cannot read properties of null (reading '" ++ k ++ "')";
     cannot_convert := "Cannot convert object to primitive value";
     invalid_json := fun text => "Unexpected token in JSON: " ++ text |}.

Definition license : License :=
  {| isAiAssistantEnabled := false; loadCertStr := "cert"; getConsumerId := "consumer" |}.

Definition endpoint : AiAssistantConfig.t :=
  {| AiAssistantConfig.baseUrl := "http://localhost:1234";
     AiAssistantConfig.apiKey := "secret";
     AiAssistantConfig.model := "llama3" |}.

(** A response body in the shape of the wire contract. *)
Definition completion (content : JsValue) : Axios.Response :=
  {| Axios.status := 200;
     Axios.data := JObj [("choices", JArr [JObj [("message", JObj [("content", content)])]])] |}.

Definition boom : JsError :=
  AxiosError "Request failed with status code 500"
    (Some {| Axios.status := 500; Axios.data := JObj [("message", JStr "boom")] |}).

(** A configured endpoint whose backend completes every request as [answer]. *)
Definition configured (answer : Completion Axios.Response) : World :=
  {| licenseService := license;
     globalConfig := {| aiAssistant := endpoint; logging_level := "info" |};
     env := fun _ => None;
     N8N_VERSION := "1.0.0";
     backend := fun _ _ _ _ => answer;
     sdk := fun _ _ _ _ => Return JNull;
     engine := v8 |}.

Definition answering (content : JsValue) : World := configured (Return (completion content)).

Definition failing : World := configured (Throw boom).

(** No endpoint, in the configuration or in the environment; the vendor SDK
    resolves every call to "ok". *)
Definition unconfigured : World :=
  {| licenseService := license;
     globalConfig := {| aiAssistant := AiAssistantConfig.defaults; logging_level := "info" |};
     env := fun _ => None;
     N8N_VERSION := "1.0.0";
     backend := fun _ _ _ _ => Throw (AxiosError "connect ECONNREFUSED" None);
     sdk := fun _ _ _ _ => Return (JStr "ok");
     engine := v8 |}.

Definition alice : JsObject :=
  [("id", JStr "u1"); ("email", JStr "alice@example.com");
   ("firstName", JStr "Alice"); ("lastName", JStr "A")].

Definition request : JsObject :=
  [("payload", JObj [("text", JStr "hello")]); ("sessionId", JStr "s1")].

Definition question : JsObject :=
  [("question", JStr "why?"); ("context", JObj [("schema", JArr [])]); ("forNode", JStr "Code")].

(** The service after a first chat under [w]. *)
Definition used (w : World) : State := snd (chat w request alice start).

End Sample.

Arguments Number.to_string : simpl never.
Arguments JSON.parse : simpl never.
Arguments JSON.serialize : simpl never.
Arguments JSON.stringify : simpl never.
Arguments JSON.stringify_pretty : simpl never.

(** ** The embedding on examples *)

Example parse_object : JSON.parse text_a_1 = Some (JObj [("a", JNum 1)]).
Proof. vm_compute. reflexivity. Qed.

Example parse_empty_object : JSON.parse "{}" = Some (JObj []).
Proof. vm_compute. reflexivity. Qed.

Example parse_rejects :
  map JSON.parse ["hello"; EmptyString; "{a:1}"; "[1,]"; "01"; "{} {}"]
  = [None; None; None; None; None; None].
Proof. vm_compute. reflexivity. Qed.

Example parse_nested :
  JSON.parse ("[1.5e2, -0.25, true, null, {" ++ dquote ++ "k" ++ dquote ++ ": [" ++ dquote
              ++ "A\n" ++ dquote ++ "]}]")
  = Some (JArr [JNum 150; JNum (-0.25); JBool true; JNull;
                JObj [("k", JArr [JStr ("A" ++ newline)])]]).
Proof. vm_compute. reflexivity. Qed.

Example stringify_request :
  JSON.stringify (JObj Sample.request)
  = Some ("{" ++ dquote ++ "payload" ++ dquote ++ ":{" ++ dquote ++ "text" ++ dquote ++ ":"
          ++ dquote ++ "hello" ++ dquote ++ "}," ++ dquote ++ "sessionId" ++ dquote ++ ":"
          ++ dquote ++ "s1" ++ dquote ++ "}").
Proof. vm_compute. reflexivity. Qed.

Example number_to_string :
  map (fun '(m, e) => Number.to_string (Number.of_decimal false m e))
    [(500, 0); (5, -1); (1, 21); (12345678901234568, 4); (1, -7); (1, -6); (1, 23);
     (30000000000000004, -17); (5, -324)]
  = ["500"; "0.5"; "1e+21"; "123456789012345680000"; "1e-7"; "0.000001"; "1e+23";
     "0.30000000000000004"; "5e-324"].
Proof. vm_compute. reflexivity. Qed.

Example first_chat_selects_direct :
  this (Sample.used (Sample.answering (JStr "X")))
  = {| client := None;
       customHttpClient := Some (direct_client (Sample.answering (JStr "X")));
       useCustomEndpoint := true |}
  /\ calls (Sample.used (Sample.answering (JStr "X")))
     = [AxiosCreate (direct_client (Sample.answering (JStr "X")));
        AxiosPost (direct_client (Sample.answering (JStr "X"))) path
          (chat_request (Sample.answering (JStr "X")) Sample.request Sample.alice)].
Proof. vm_compute. split; reflexivity. Qed.

(** ** What [init] does *)

Lemma init_returns w s : fst (init w s) = Return tt.
Proof.
  unfold init, endpoint_valid.
  destruct (isAiAssistantEnabled (licenseService w));
    destruct (truthy_str (resolved_baseUrl w) && truthy_str (resolved_apiKey w));
    reflexivity.
Qed.

Lemma init_this w s : this (snd (init w s)) = init_fields w (this s).
Proof.
  unfold init, init_fields, endpoint_valid.
  destruct (isAiAssistantEnabled (licenseService w));
    destruct (truthy_str (resolved_baseUrl w) && truthy_str (resolved_apiKey w));
    reflexivity.
Qed.

Lemma init_calls w s : calls (snd (init w s)) = (calls s ++ [init_call w])%list.
Proof.
  unfold init, init_call, endpoint_valid.
  destruct (isAiAssistantEnabled (licenseService w));
    destruct (truthy_str (resolved_baseUrl w) && truthy_str (resolved_apiKey w));
    reflexivity.
Qed.

Lemma is_construction_init_call w : is_construction (init_call w) = true.
Proof. unfold init_call. destruct (endpoint_valid w); reflexivity. Qed.

Lemma constructions_app cs cs' :
  constructions (cs ++ cs') = (constructions cs + constructions cs')%nat.
Proof. unfold constructions. rewrite filter_app, length_app. reflexivity. Qed.

Lemma constructions_snoc cs c :
  is_construction c = false -> constructions (cs ++ [c]) = constructions cs.
Proof.
  intros H. rewrite constructions_app. unfold constructions at 2. simpl.
  rewrite H. simpl. lia.
Qed.

Lemma init_constructions w s :
  constructions (calls (snd (init w s))) = S (constructions (calls s)).
Proof.
  rewrite init_calls, constructions_app. unfold constructions at 2. simpl.
  rewrite is_construction_init_call. simpl. lia.
Qed.

(** ** Computations that leave the fields alone

    Apart from [init], nothing in the service writes a field or builds a
    client: the rest of every method is [quiet], a property closed under the
    constructs of the monad. *)

Create HintDb quiet.

Lemma quiet_ret {A} (a : A) : quiet (ret a).
Proof. intros s. split; reflexivity. Qed.

Lemma quiet_throw {A} (e : JsError) : quiet (@throw A e).
Proof. intros s. split; reflexivity. Qed.

Lemma quiet_bind {A B} (c : M A) (f : A -> M B) :
  quiet c -> (forall a, quiet (f a)) -> quiet (bind c f).
Proof.
  intros Hc Hf s. unfold bind.
  destruct (Hc s) as [Ht Hn].
  destruct (c s) as [[a | e] s']; simpl in *.
  - destruct (Hf a s') as [Ht' Hn']. split; congruence.
  - split; assumption.
Qed.

Lemma quiet_try_catch {A} (body : M A) (handler : JsError -> M A) :
  quiet body -> (forall e, quiet (handler e)) -> quiet (try_catch body handler).
Proof.
  intros Hb Hh s. unfold try_catch.
  destruct (Hb s) as [Ht Hn].
  destruct (body s) as [[a | e] s']; simpl in *.
  - split; assumption.
  - destruct (Hh e s') as [Ht' Hn']. split; congruence.
Qed.

Lemma quiet_get_this : quiet get_this.
Proof. intros s. split; reflexivity. Qed.

Lemma quiet_print l args : quiet (print l args).
Proof. intros s. split; reflexivity. Qed.

Lemma quiet_console_log args : quiet (console_log args).
Proof. apply quiet_print. Qed.

Lemma quiet_console_error args : quiet (console_error args).
Proof. apply quiet_print. Qed.

Lemma quiet_axios_post w http url body : quiet (axios_post w http url body).
Proof.
  intros s. split; [reflexivity |]. simpl. now apply constructions_snoc.
Qed.

Lemma quiet_vendor_call w c m args : quiet (vendor_call w c m args).
Proof.
  intros s. split; [reflexivity |]. simpl. now apply constructions_snoc.
Qed.

Lemma quiet_assert {A} (condition : option A) msg : quiet (assert condition msg).
Proof. destruct condition; [apply quiet_ret | apply quiet_throw]. Qed.

Lemma quiet_type_error {A} msg : quiet (@type_error A msg).
Proof. apply quiet_throw. Qed.

Lemma quiet_member w v k : quiet (member w v k).
Proof. unfold member. destruct (Js.nullish v); [apply quiet_throw | apply quiet_ret]. Qed.

Lemma quiet_template w v : quiet (template w v).
Proof. unfold template. destruct (Js.to_string v); [apply quiet_ret | apply quiet_throw]. Qed.

#[export] Hint Resolve quiet_ret quiet_throw quiet_get_this quiet_console_log quiet_console_error
  quiet_axios_post quiet_vendor_call quiet_assert quiet_type_error quiet_member
  quiet_template : quiet.

(** One step of a proof of [quiet]: a construct of the monad, or a case
    distinction on the value that a [match] inspects. *)
Ltac quiet_step :=
  match goal with
  | |- quiet (bind _ _) => apply quiet_bind; [| intros ?]
  | |- quiet (try_catch _ _) => apply quiet_try_catch; [| intros ?]
  | |- quiet (match ?x with _ => _ end) => destruct x
  | |- quiet (let _ := _ in _) => cbv zeta
  | |- quiet _ => solve [auto with quiet]
  end.

Ltac prove_quiet := repeat quiet_step.

Lemma quiet_JSON_parse w v : quiet (JSON_parse w v).
Proof. unfold JSON_parse. prove_quiet. Qed.

Lemma quiet_first_content w v : quiet (first_content w v).
Proof. unfold first_content. prove_quiet. Qed.

Lemma quiet_log_request w : quiet (log_request w).
Proof. unfold log_request. prove_quiet. Qed.

Lemma quiet_rethrow {A} w e : quiet (@rethrow w A e).
Proof. unfold rethrow. prove_quiet. Qed.

#[export] Hint Resolve quiet_JSON_parse quiet_first_content quiet_log_request quiet_rethrow : quiet.

(** After a computation followed by a quiet one, the fields and the number
    of clients built are those the computation left. *)
Lemma then_quiet {A B} (c : M A) (f : A -> M B) s :
  (forall a, quiet (f a)) ->
  this (snd (bind c f s)) = this (snd (c s))
  /\ constructions (calls (snd (bind c f s))) = constructions (calls (snd (c s))).
Proof.
  intros Hf. unfold bind. destruct (c s) as [[a | e] s']; simpl.
  - apply Hf.
  - split; reflexivity.
Qed.

Lemma init_unless_any_client_this w s :
  this (snd (init_unless_any_client w s))
  = if has_handle (this s) then this s else init_fields w (this s).
Proof.
  unfold init_unless_any_client, has_handle, bind, get_this.
  destruct (client (this s)), (customHttpClient (this s)); simpl;
    try reflexivity. apply init_this.
Qed.

Lemma init_unless_any_client_constructions w s :
  constructions (calls (snd (init_unless_any_client w s)))
  = if has_handle (this s) then constructions (calls s) else S (constructions (calls s)).
Proof.
  unfold init_unless_any_client, has_handle, bind, get_this.
  destruct (client (this s)), (customHttpClient (this s)); simpl;
    try reflexivity. apply init_constructions.
Qed.

Lemma init_unless_vendor_client_this w s :
  this (snd (init_unless_vendor_client w s))
  = if is_some (client (this s)) then this s else init_fields w (this s).
Proof.
  unfold init_unless_vendor_client, bind, get_this.
  destruct (client (this s)); simpl; [reflexivity | apply init_this].
Qed.

Lemma init_unless_vendor_client_constructions w s :
  constructions (calls (snd (init_unless_vendor_client w s)))
  = if is_some (client (this s)) then constructions (calls s)
    else S (constructions (calls s)).
Proof.
  unfold init_unless_vendor_client, bind, get_this.
  destruct (client (this s)); simpl; [reflexivity | apply init_constructions].
Qed.

(** Each operation is its guarded [init] followed by a quiet computation. *)
Lemma chat_guard w payload user s :
  this (snd (chat w payload user s)) = this (snd (init_unless_any_client w s))
  /\ constructions (calls (snd (chat w payload user s)))
     = constructions (calls (snd (init_unless_any_client w s))).
Proof. unfold chat. apply then_quiet. intros _. prove_quiet. Qed.

Lemma applySuggestion_guard w payload user s :
  this (snd (applySuggestion w payload user s)) = this (snd (init_unless_any_client w s))
  /\ constructions (calls (snd (applySuggestion w payload user s)))
     = constructions (calls (snd (init_unless_any_client w s))).
Proof. unfold applySuggestion. apply then_quiet. intros _. prove_quiet. Qed.

Lemma askAi_guard w payload user s :
  this (snd (askAi w payload user s)) = this (snd (init_unless_any_client w s))
  /\ constructions (calls (snd (askAi w payload user s)))
     = constructions (calls (snd (init_unless_any_client w s))).
Proof. unfold askAi. apply then_quiet. intros _. prove_quiet. Qed.

Lemma createFreeAiCredits_guard w user s :
  this (snd (createFreeAiCredits w user s)) = this (snd (init_unless_vendor_client w s))
  /\ constructions (calls (snd (createFreeAiCredits w user s)))
     = constructions (calls (snd (init_unless_vendor_client w s))).
Proof. unfold createFreeAiCredits. apply then_quiet. intros _. prove_quiet. Qed.

Lemma perform_this w op s :
  this (snd (perform w op s))
  = if guard_open op (this s) then init_fields w (this s) else this s.
Proof.
  destruct op; simpl; unfold guard_open; simpl.
  - rewrite (proj1 (chat_guard _ _ _ _)), init_unless_any_client_this.
    destruct (has_handle (this s)); reflexivity.
  - rewrite (proj1 (applySuggestion_guard _ _ _ _)), init_unless_any_client_this.
    destruct (has_handle (this s)); reflexivity.
  - rewrite (proj1 (askAi_guard _ _ _ _)), init_unless_any_client_this.
    destruct (has_handle (this s)); reflexivity.
  - rewrite (proj1 (createFreeAiCredits_guard _ _ _)), init_unless_vendor_client_this.
    destruct (is_some (client (this s))); reflexivity.
Qed.

Lemma perform_constructions w op s :
  constructions (calls (snd (perform w op s)))
  = if guard_open op (this s) then S (constructions (calls s)) else constructions (calls s).
Proof.
  destruct op; simpl; unfold guard_open; simpl.
  - rewrite (proj2 (chat_guard _ _ _ _)), init_unless_any_client_constructions.
    destruct (has_handle (this s)); reflexivity.
  - rewrite (proj2 (applySuggestion_guard _ _ _ _)), init_unless_any_client_constructions.
    destruct (has_handle (this s)); reflexivity.
  - rewrite (proj2 (askAi_guard _ _ _ _)), init_unless_any_client_constructions.
    destruct (has_handle (this s)); reflexivity.
  - rewrite (proj2 (createFreeAiCredits_guard _ _ _)), init_unless_vendor_client_constructions.
    destruct (is_some (client (this s))); reflexivity.
Qed.

(** ** The invariant on the two handles *)

Lemma coherent_fresh w : coherent w fresh = true.
Proof. reflexivity. Qed.

Lemma coherent_init_fields w t : coherent w t = true -> coherent w (init_fields w t) = true.
Proof.
  unfold coherent, init_fields.
  destruct (endpoint_valid w), (client t), (customHttpClient t); simpl; auto.
Qed.

Lemma coherent_perform w op s :
  coherent w (this s) = true -> coherent w (this (snd (perform w op s))) = true.
Proof.
  intros H. rewrite perform_this.
  destruct (guard_open op (this s)); [now apply coherent_init_fields | assumption].
Qed.

Lemma coherent_run w ops :
  forall s, coherent w (this s) = true -> coherent w (this (run w ops s)) = true.
Proof.
  induction ops as [| op rest IH]; intros s H; simpl.
  - assumption.
  - apply IH. now apply coherent_perform.
Qed.

Lemma coherent_at_most_one w t : coherent w t = true -> at_most_one t = true.
Proof.
  unfold coherent, at_most_one.
  destruct (endpoint_valid w), (client t), (customHttpClient t); simpl; auto.
Qed.

Lemma reachable_coherent w s : reachable w s -> coherent w (this s) = true.
Proof.
  induction 1 as [| s op _ IH].
  - apply coherent_fresh.
  - now apply coherent_perform.
Qed.

Lemma run_reachable w ops : forall s, reachable w s -> reachable w (run w ops s).
Proof.
  induction ops as [| op rest IH]; intros s H; simpl.
  - assumption.
  - apply IH. now constructor.
Qed.

Lemma visited_coherent w ops :
  forall s, coherent w (this s) = true ->
            Forall (fun s' => coherent w (this s') = true) (visited w ops s).
Proof.
  induction ops as [| op rest IH]; intros s H; simpl.
  - constructor; [assumption | constructor].
  - constructor; [assumption |]. apply IH. now apply coherent_perform.
Qed.

(** From a state that fits the configuration, no sequence of operations
    populates both handles. *)
Lemma visited_at_most_one w ops s :
  coherent w (this s) = true ->
  Forall (fun s' => at_most_one (this s') = true) (visited w ops s).
Proof.
  intros H. eapply Forall_impl; [| apply visited_coherent; exact H].
  intros s' Hs'. now apply coherent_at_most_one with w.
Qed.

(** ** Counting the clients built *)

Lemma has_handle_init_fields w t : has_handle (init_fields w t) = true.
Proof.
  unfold has_handle, init_fields.
  destruct (endpoint_valid w); simpl; [apply orb_true_r | reflexivity].
Qed.

Lemma has_handle_perform w op s :
  is_credits op = false -> has_handle (this (snd (perform w op s))) = true.
Proof.
  intros Hop. rewrite perform_this. unfold guard_open. rewrite Hop.
  destruct (has_handle (this s)) eqn:E; simpl; [assumption | apply has_handle_init_fields].
Qed.

Lemma client_init_fields_vendor w t :
  endpoint_valid w = false -> is_some (client (init_fields w t)) = true.
Proof. intros H. unfold init_fields. rewrite H. reflexivity. Qed.

(** Two operations build at most one client, unless the second is a
    createFreeAiCredits that finds no vendor client under a configured
    endpoint. *)
Lemma two_operations_build_at_most_one w op1 op2 s :
  is_credits op2 = false \/ endpoint_valid w = false \/ is_some (client (this s)) = true ->
  (constructions (calls (run w [op1; op2] s)) <= S (constructions (calls s)))%nat.
Proof.
  intros H. simpl. rewrite !perform_constructions, perform_this.
  destruct (guard_open op1 (this s)) eqn:G1.
  - assert (G2 : guard_open op2 (init_fields w (this s)) = false); [| rewrite G2; lia].
    unfold guard_open. destruct H as [H | [H | H]].
    + rewrite H, has_handle_init_fields. reflexivity.
    + rewrite has_handle_init_fields, client_init_fields_vendor by assumption.
      destruct (is_credits op2); reflexivity.
    + unfold guard_open, has_handle in G1. rewrite H in G1.
      destruct (is_credits op1); discriminate.
  - destruct (guard_open op2 (this s)); lia.
Qed.

(** Any sequence of chat, applySuggestion and askAi, from any state, builds
    at most one client. *)
Lemma translated_build_at_most_one w ops :
  forallb (fun op => negb (is_credits op)) ops = true ->
  forall s,
    (constructions (calls (run w ops s)) <= S (constructions (calls s)))%nat
    /\ (has_handle (this s) = true ->
        constructions (calls (run w ops s)) = constructions (calls s)).
Proof.
  induction ops as [| op rest IH]; intros Hops s; simpl in *.
  - split; [lia | reflexivity].
  - apply andb_prop in Hops as [Hop Hrest]. apply negb_true_iff in Hop.
    destruct (IH Hrest (snd (perform w op s))) as [_ Hsame].
    rewrite Hsame by (now apply has_handle_perform).
    rewrite perform_constructions. unfold guard_open. rewrite Hop.
    split; [destruct (has_handle (this s)); simpl; lia |].
    intros Hs. rewrite Hs. reflexivity.
Qed.

(** Under a configured endpoint and without a vendor client,
    createFreeAiCredits fails on the assertion after [init] has built one
    more HTTP client, and sends nothing. *)
Lemma credits_need_vendor_client w user s :
  endpoint_valid w = true ->
  client (this s) = None ->
  fst (createFreeAiCredits w user s) = Throw (ErrorObject "Error" "Assistant client not setup")
  /\ calls (snd (createFreeAiCredits w user s)) = (calls s ++ [AxiosCreate (direct_client w)])%list
  /\ this (snd (createFreeAiCredits w user s))
     = {| client := None;
          customHttpClient := Some (direct_client w);
          useCustomEndpoint := true |}.
Proof.
  intros Hv Hc.
  pose proof (init_returns w s) as Hr.
  pose proof (init_this w s) as Ht.
  pose proof (init_calls w s) as Hcs.
  unfold init_fields, init_call in *. rewrite Hv in *.
  unfold createFreeAiCredits, init_unless_vendor_client, bind, get_this.
  rewrite Hc. simpl.
  destruct (init w s) as [[[] | e] s']; simpl in *; [| discriminate].
  rewrite Ht. simpl. rewrite Hc. simpl. rewrite Ht, Hc. auto.
Qed.

(** ** Dispatch *)

Lemma mode_direct t :
  mode t = Some DirectEndpoint ->
  useCustomEndpoint t = true /\ exists http, customHttpClient t = Some http.
Proof.
  unfold mode. destruct (useCustomEndpoint t), (customHttpClient t) as [http |]; simpl;
    try (destruct (client t); discriminate).
  intros _. split; [reflexivity | now exists http].
Qed.

Ltac vendor_dispatch :=
  match goal with
  | Hm : mode (this ?s) = Some VendorManaged, Hc : client (this ?s) = Some _ |- _ =>
      destruct s as [[cl cu fl] con cs]; simpl in *; subst;
      unfold mode in Hm; simpl in Hm;
      unfold delegates, chat, applySuggestion, askAi, createFreeAiCredits,
        init_unless_any_client, init_unless_vendor_client, bind, get_this;
      destruct fl, cu; simpl in *; try discriminate; auto
  end.

(** ** The direct endpoint *)

Lemma first_content_data w data s :
  Js.nullish data = false -> first_content w data s = (Return (content_of data), s).
Proof.
  intros H. unfold first_content, member, bind. rewrite H. reflexivity.
Qed.

Lemma or_truthy a b : Js.truthy a = true -> Js.or a b = a.
Proof. intros H. unfold Js.or. now rewrite H. Qed.

Lemma or_falsy a b : Js.truthy a = false -> Js.or a b = b.
Proof. intros H. unfold Js.or. now rewrite H. Qed.

Lemma content_of_no_choices data :
  Js.get data "choices" = JUndefined -> content_of data = JUndefined.
Proof. intros H. unfold content_of. rewrite H. reflexivity. Qed.

(** A body with a truthy content is an object, an array or a string. *)
Lemma truthy_content_not_nullish data :
  Js.truthy (content_of data) = true -> Js.nullish data = false.
Proof. destruct data; simpl; intros H; try reflexivity; discriminate. Qed.

(** The translated part of chat, for a response body that is neither [null]
    nor [undefined]. *)
Lemma chat_direct w payload user s http response :
  mode (this s) = Some DirectEndpoint ->
  customHttpClient (this s) = Some http ->
  backend w (calls s) http path (chat_request w payload user) = Return response ->
  Js.nullish (Axios.data response) = false ->
  fst (chat w payload user s)
  = Return (chat_response (Js.get (JObj payload) "sessionId")
              (Js.or (content_of (Axios.data response)) no_response)).
Proof.
  intros Hm Hh Hb Hn.
  apply mode_direct in Hm as [Hf _].
  destruct s as [[cl cu fl] con cs]; simpl in *; subst.
  unfold chat, init_unless_any_client, bind, get_this, try_catch. simpl.
  destruct cl; simpl; rewrite Hb; simpl; rewrite first_content_data by assumption;
    reflexivity.
Qed.

(** In direct mode chat sends one request, through the stored client, and
    makes no other call, whatever the backend answers. *)
Lemma chat_posts_through_client w payload user s http :
  mode (this s) = Some DirectEndpoint ->
  customHttpClient (this s) = Some http ->
  calls (snd (chat w payload user s))
  = (calls s ++ [AxiosPost http path (chat_request w payload user)])%list.
Proof.
  intros Hm Hh.
  apply mode_direct in Hm as [Hf _].
  destruct s as [[cl cu fl] con cs]; simpl in *; subst.
  unfold chat, init_unless_any_client, bind, get_this, try_catch, first_content, member,
    rethrow, template.
  destruct cl; simpl;
    repeat match goal with
           | |- context [match backend ?a ?b ?c ?d ?e with _ => _ end] =>
               destruct (backend a b c d e); simpl
           | |- context [if Js.nullish ?v then _ else _] => destruct (Js.nullish v); simpl
           | |- context [match Js.to_string ?v with _ => _ end] =>
               destruct (Js.to_string v); simpl
           end;
    reflexivity.
Qed.

(** Reading [choices] of a body that is [null] throws inside the [try]; the
    [catch] block turns the TypeError into the error of the service. *)
Lemma chat_throws_on_null_body :
  fst (chat (Sample.configured (Return {| Axios.status := 200; Axios.data := JNull |}))
         Sample.request Sample.alice start)
  = Throw (ErrorObject "Error"
             "Custom AI service error: Unknown - Cannot read properties of null (reading 'choices')").
Proof. vm_compute. reflexivity. Qed.

(** The translated part of applySuggestion, up to [JSON.parse]. *)
Lemma applySuggestion_direct w payload user s http response :
  mode (this s) = Some DirectEndpoint ->
  customHttpClient (this s) = Some http ->
  backend w (calls s) http path (applySuggestion_request w payload user) = Return response ->
  Js.nullish (Axios.data response) = false ->
  fst (applySuggestion w payload user s)
  = fst (try_catch
           (parameters <- JSON_parse w (Js.or (content_of (Axios.data response)) (JStr "{}")) ;;
            ret (suggestion_response (Js.get (JObj payload) "sessionId") parameters))
           (rethrow w)
           s).
Proof.
  intros Hm Hh Hb Hn.
  apply mode_direct in Hm as [Hf _].
  destruct s as [[cl cu fl] con cs]; simpl in *; subst.
  unfold applySuggestion, init_unless_any_client, bind, get_this, try_catch. simpl.
  destruct cl; simpl; rewrite Hb; simpl; rewrite first_content_data by assumption; simpl;
    unfold JSON_parse, bind;
    destruct (template w (Js.or (content_of (Axios.data response)) (JStr "{}")))
      as [[text | e] s'] eqn:Et.
  all: unfold template in *;
    destruct (Js.to_string (Js.or (content_of (Axios.data response)) (JStr "{}")));
    inversion Et; subst; simpl; try reflexivity.
  all: destruct (JSON.parse _); reflexivity.
Qed.

Lemma JSON_parse_string w text s :
  JSON_parse w (JStr text) s
  = match JSON.parse text with
    | Some r => (Return r, s)
    | None => (Throw (ErrorObject "SyntaxError" (invalid_json (engine w) text)), s)
    end.
Proof.
  unfold JSON_parse, bind, template. cbn [Js.to_string].
  unfold ret. destruct (JSON.parse text); reflexivity.
Qed.

Lemma parsed_is_returned w v sessionId s r :
  JSON_parse w v s = (Return r, s) ->
  fst (try_catch
         (parameters <- JSON_parse w v ;; ret (suggestion_response sessionId parameters))
         (rethrow w) s)
  = Return (suggestion_response sessionId r).
Proof. intros H. unfold try_catch, bind. rewrite H. reflexivity. Qed.

Lemma syntax_error_is_wrapped w v sessionId s msg :
  JSON_parse w v s = (Throw (ErrorObject "SyntaxError" msg), s) ->
  fst (try_catch
         (parameters <- JSON_parse w v ;; ret (suggestion_response sessionId parameters))
         (rethrow w) s)
  = Throw (ErrorObject "Error" ("Custom AI service error: Unknown - " ++ msg)).
Proof. intros H. unfold try_catch, bind. rewrite H. reflexivity. Qed.

Lemma to_string_500 : Number.to_string 500 = "500".
Proof. vm_compute. reflexivity. Qed.

(** The [catch] block on an axios error that carries a response with a
    truthy status and a non-empty string for [data.message]. *)
Lemma rethrow_response {A} w msg status data detail s :
  Number.truthy status = true ->
  Js.nullish data = false ->
  Js.get data "message" = JStr detail ->
  nonempty detail = true ->
  fst (@rethrow w A (AxiosError msg (Some {| Axios.status := status; Axios.data := data |})) s)
  = Throw (ErrorObject "Error"
             ("Custom AI service error: " ++ Number.to_string status ++ " - " ++ detail)).
Proof.
  intros Hs Hn Hd Ht.
  unfold rethrow, bind, console_error, print, template, response_status, response_data,
    Js.opt. cbn [response_of Axios.status Axios.data fst snd].
  rewrite Hn, Hd. unfold Js.or. cbn [Js.truthy]. rewrite Hs, Ht.
  reflexivity.
Qed.

(** The invariant needs the configuration to stay the one under which the
    service was initialised: after a chat under a configured endpoint, a
    createFreeAiCredits under a configuration that has lost the endpoint
    adds the vendor client to the direct one. *)
Lemma configuration_change_populates_both :
  at_most_one (this (Sample.used Sample.failing)) = true
  /\ at_most_one
       (this (run Sample.unconfigured [CreateFreeAiCredits Sample.alice]
                (Sample.used Sample.failing)))
     = false.
Proof. vm_compute. split; reflexivity. Qed.

(** ** The claims *)

(** C1.  Initialisation selects the backend by the resolved endpoint
    configuration alone, and always returns.  When the resolved baseUrl and
    apiKey are both non-empty it sets the custom-endpoint flag, builds the
    custom HTTP client (its one call to a collaborator) and stores it,
    leaving the vendor field as it was; when either is empty or undefined
    after the lookup in the configuration and then in the environment, it
    builds and stores the vendor AiAssistantClient and leaves the other two
    fields as they were.  Run on a service whose fields are still those of
    their initialisers, it leaves the service dispatching to DirectEndpoint
    in the first case and to VendorManaged in the second. *)
Theorem init_selects_backend (w : World) (s : State) :
  fst (init w s) = Return tt
  /\ calls (snd (init w s))
     = (calls s ++ [if endpoint_valid w then AxiosCreate (direct_client w)
                    else NewAiAssistantClient (vendor_client w)])%list
  /\ this (snd (init w s))
     = (if endpoint_valid w then
          {| client := client (this s);
             customHttpClient := Some (direct_client w);
             useCustomEndpoint := true |}
        else
          {| client := Some (vendor_client w);
             customHttpClient := customHttpClient (this s);
             useCustomEndpoint := useCustomEndpoint (this s) |})
  /\ mode (this (snd (init w {| this := fresh; console := console s; calls := calls s |})))
     = Some (if endpoint_valid w then DirectEndpoint else VendorManaged).
Proof.
  repeat split.
  - apply init_returns.
  - rewrite init_calls. unfold init_call. destruct (endpoint_valid w); reflexivity.
  - apply init_this.
  - rewrite init_this. unfold init_fields. simpl.
    destruct (endpoint_valid w); reflexivity.
Qed.

(** C2, amended.  In DirectEndpoint mode, for every chat request and every
    backend response, chat returns the request's sessionId unchanged and a
    list of exactly one message, with role "assistant" and type "message",
    whose text is X when the response holds
    choices[0].message.content = X and X is truthy (any non-empty string
    is), and is the literal "No response from AI service" when the response
    body, being neither [null] nor [undefined], has no choices or has a
    falsy content.  In none of these cases does chat throw. *)
Theorem chat_returns_content_or_fallback (w : World) (payload user : JsObject) (s : State)
    (http : Axios.Instance) (response : Axios.Response) :
  mode (this s) = Some DirectEndpoint ->
  customHttpClient (this s) = Some http ->
  backend w (calls s) http path (chat_request w payload user) = Return response ->
  (forall X, content_of (Axios.data response) = X ->
             Js.truthy X = true ->
             fst (chat w payload user s)
             = Return (chat_response (Js.get (JObj payload) "sessionId") X))
  /\ (Js.nullish (Axios.data response) = false ->
      Js.get (Axios.data response) "choices" = JUndefined ->
      fst (chat w payload user s)
      = Return (chat_response (Js.get (JObj payload) "sessionId")
                  (JStr "No response from AI service")))
  /\ (Js.nullish (Axios.data response) = false ->
      Js.truthy (content_of (Axios.data response)) = false ->
      fst (chat w payload user s)
      = Return (chat_response (Js.get (JObj payload) "sessionId")
                  (JStr "No response from AI service"))).
Proof.
  intros Hm Hh Hb. repeat split.
  - intros X HX Ht. subst X.
    rewrite (chat_direct w payload user s http response Hm Hh Hb)
      by (now apply truthy_content_not_nullish).
    now rewrite or_truthy.
  - intros Hn Hc. rewrite (chat_direct w payload user s http response Hm Hh Hb Hn).
    now rewrite (content_of_no_choices _ Hc).
  - intros Hn Hf. rewrite (chat_direct w payload user s http response Hm Hh Hb Hn).
    now rewrite or_falsy.
Qed.

Lemma chat_returns_content_or_fallback_witness :
  mode (this (Sample.used (Sample.answering (JStr "X")))) = Some DirectEndpoint
  /\ customHttpClient (this (Sample.used (Sample.answering (JStr "X"))))
     = Some (direct_client (Sample.answering (JStr "X")))
  /\ backend (Sample.answering (JStr "X"))
       (calls (Sample.used (Sample.answering (JStr "X"))))
       (direct_client (Sample.answering (JStr "X"))) path
       (chat_request (Sample.answering (JStr "X")) Sample.request Sample.alice)
     = Return (Sample.completion (JStr "X"))
  /\ content_of (Axios.data (Sample.completion (JStr "X"))) = JStr "X"
  /\ Js.truthy (JStr "X") = true
  /\ fst (chat (Sample.answering (JStr "X")) Sample.request Sample.alice
            (Sample.used (Sample.answering (JStr "X"))))
     = Return (chat_response (JStr "s1") (JStr "X")).
Proof.
  repeat (split; [reflexivity |]).
  apply (chat_returns_content_or_fallback
           (Sample.answering (JStr "X")) Sample.request Sample.alice
           (Sample.used (Sample.answering (JStr "X")))
           (direct_client (Sample.answering (JStr "X")))
           (Sample.completion (JStr "X"))
           eq_refl eq_refl eq_refl);
    reflexivity.
Defined.

(** C2 as stated fails when the content is the empty string: the response
    holds choices[0].message.content = "", and the text returned is the
    fallback literal, not the content. *)
Lemma chat_replaces_empty_content :
  mode (this (Sample.used (Sample.answering (JStr EmptyString)))) = Some DirectEndpoint
  /\ content_of (Axios.data (Sample.completion (JStr EmptyString))) = JStr EmptyString
  /\ fst (chat (Sample.answering (JStr EmptyString)) Sample.request Sample.alice
            (Sample.used (Sample.answering (JStr EmptyString))))
     = Return (chat_response (JStr "s1") (JStr "No response from AI service"))
  /\ fst (chat (Sample.answering (JStr EmptyString)) Sample.request Sample.alice
            (Sample.used (Sample.answering (JStr EmptyString))))
     <> Return (chat_response (JStr "s1") (JStr EmptyString)).
Proof.
  split; [reflexivity |]. split; [reflexivity |]. split; [vm_compute; reflexivity |].
  vm_compute. discriminate.
Qed.

(** C3, amended.  In DirectEndpoint mode, for every applySuggestion request
    and every backend response: when the content is the string [{"a":1}],
    the parameters returned are the object {a: 1}; when the response body,
    being neither [null] nor [undefined], has no content or a falsy one, the
    parameters returned are the empty object; and when the content is a
    non-empty string that JSON.parse rejects, applySuggestion returns
    nothing: it throws the error "Custom AI service error: Unknown - "
    followed by the message of the SyntaxError. *)
Theorem applySuggestion_parses_content (w : World) (payload user : JsObject) (s : State)
    (http : Axios.Instance) (response : Axios.Response) :
  mode (this s) = Some DirectEndpoint ->
  customHttpClient (this s) = Some http ->
  backend w (calls s) http path (applySuggestion_request w payload user) = Return response ->
  (content_of (Axios.data response) = JStr text_a_1 ->
   fst (applySuggestion w payload user s)
   = Return (suggestion_response (Js.get (JObj payload) "sessionId") (JObj [("a", JNum 1)])))
  /\ (Js.nullish (Axios.data response) = false ->
      Js.truthy (content_of (Axios.data response)) = false ->
      fst (applySuggestion w payload user s)
      = Return (suggestion_response (Js.get (JObj payload) "sessionId") (JObj [])))
  /\ (forall text,
        content_of (Axios.data response) = JStr text ->
        nonempty text = true ->
        JSON.parse text = None ->
        fst (applySuggestion w payload user s)
        = Throw (ErrorObject "Error"
                   ("Custom AI service error: Unknown - " ++ invalid_json (engine w) text))).
Proof.
  intros Hm Hh Hb. repeat split.
  - intros Hc.
    rewrite (applySuggestion_direct w payload user s http response Hm Hh Hb)
      by (apply truthy_content_not_nullish; now rewrite Hc).
    rewrite Hc, or_truthy by reflexivity.
    apply parsed_is_returned. now rewrite JSON_parse_string, parse_object.
  - intros Hn Hf.
    rewrite (applySuggestion_direct w payload user s http response Hm Hh Hb Hn).
    rewrite or_falsy by assumption.
    apply parsed_is_returned. now rewrite JSON_parse_string, parse_empty_object.
  - intros text Hc Ht Hp.
    rewrite (applySuggestion_direct w payload user s http response Hm Hh Hb)
      by (apply truthy_content_not_nullish; now rewrite Hc).
    rewrite Hc, or_truthy by exact Ht.
    apply syntax_error_is_wrapped. now rewrite JSON_parse_string, Hp.
Qed.

Lemma applySuggestion_parses_content_witness :
  mode (this (Sample.used (Sample.answering (JStr text_a_1)))) = Some DirectEndpoint
  /\ customHttpClient (this (Sample.used (Sample.answering (JStr text_a_1))))
     = Some (direct_client (Sample.answering (JStr text_a_1)))
  /\ backend (Sample.answering (JStr text_a_1))
       (calls (Sample.used (Sample.answering (JStr text_a_1))))
       (direct_client (Sample.answering (JStr text_a_1))) path
       (applySuggestion_request (Sample.answering (JStr text_a_1))
          Sample.request Sample.alice)
     = Return (Sample.completion (JStr text_a_1))
  /\ content_of (Axios.data (Sample.completion (JStr text_a_1))) = JStr text_a_1
  /\ fst (applySuggestion (Sample.answering (JStr text_a_1)) Sample.request Sample.alice
            (Sample.used (Sample.answering (JStr text_a_1))))
     = Return (suggestion_response (JStr "s1") (JObj [("a", JNum 1)])).
Proof.
  repeat (split; [reflexivity |]).
  apply (applySuggestion_parses_content
           (Sample.answering (JStr text_a_1)) Sample.request Sample.alice
           (Sample.used (Sample.answering (JStr text_a_1)))
           (direct_client (Sample.answering (JStr text_a_1)))
           (Sample.completion (JStr text_a_1))
           eq_refl eq_refl eq_refl).
  reflexivity.
Defined.

(** C3 as stated fails on content that is present and is not JSON: for the
    content "hello" applySuggestion throws, and so does not return the empty
    object. *)
Lemma applySuggestion_throws_on_bad_json :
  mode (this (Sample.used (Sample.answering (JStr "hello")))) = Some DirectEndpoint
  /\ content_of (Axios.data (Sample.completion (JStr "hello"))) = JStr "hello"
  /\ JSON.parse "hello" = None
  /\ fst (applySuggestion (Sample.answering (JStr "hello")) Sample.request Sample.alice
            (Sample.used (Sample.answering (JStr "hello"))))
     = Throw (ErrorObject "Error"
                "Custom AI service error: Unknown - Unexpected token in JSON: hello")
  /\ fst (applySuggestion (Sample.answering (JStr "hello")) Sample.request Sample.alice
            (Sample.used (Sample.answering (JStr "hello"))))
     <> Return (suggestion_response (JStr "s1") (JObj [])).
Proof.
  split; [reflexivity |]. split; [reflexivity |].
  split; [vm_compute; reflexivity |]. split; [vm_compute; reflexivity |].
  vm_compute. discriminate.
Qed.

(** C4.  In DirectEndpoint mode, when the transport fails with HTTP status
    500 and the response body {message: "boom"}, each of chat,
    applySuggestion and askAi throws one error, whose message is
    "Custom AI service error: 500 - boom" and so contains both "500" and
    "boom"; none returns a result.  (askAi sends its request once the
    question and the node name of its payload have been written into the
    message, which every string allows.) *)
Theorem transport_failure_is_wrapped (w : World) (s : State) (http : Axios.Instance)
    (msg : string) (payload suggestion ask user : JsObject) (q n : string) :
  mode (this s) = Some DirectEndpoint ->
  customHttpClient (this s) = Some http ->
  (forall body,
      backend w (calls s) http path body
      = Throw (AxiosError msg
                 (Some {| Axios.status := 500;
                          Axios.data := JObj [("message", JStr "boom")] |}))) ->
  Js.to_string (Js.get (JObj ask) "question") = Some q ->
  Js.to_string (Js.get (JObj ask) "forNode") = Some n ->
  fst (chat w payload user s)
  = Throw (ErrorObject "Error" "Custom AI service error: 500 - boom")
  /\ fst (applySuggestion w suggestion user s)
     = Throw (ErrorObject "Error" "Custom AI service error: 500 - boom")
  /\ fst (askAi w ask user s)
     = Throw (ErrorObject "Error" "Custom AI service error: 500 - boom")
  /\ includes "Custom AI service error: 500 - boom" "500" = true
  /\ includes "Custom AI service error: 500 - boom" "boom" = true.
Proof.
  intros Hm Hh Hb Hq Hn.
  apply mode_direct in Hm as [Hf _].
  destruct s as [[cl cu fl] con cs]; simpl in *; subst.
  assert (Hr : forall A s',
             fst (@rethrow w A
                    (AxiosError msg
                       (Some {| Axios.status := 500;
                                Axios.data := JObj [("message", JStr "boom")] |})) s')
             = Throw (ErrorObject "Error" "Custom AI service error: 500 - boom")).
  { intros A s'. rewrite (rethrow_response w msg 500 _ "boom") by reflexivity.
    rewrite to_string_500. reflexivity. }
  repeat split.
  - unfold chat, init_unless_any_client, bind, get_this, try_catch. simpl.
    destruct cl; simpl; rewrite Hb; apply Hr.
  - unfold applySuggestion, init_unless_any_client, bind, get_this, try_catch. simpl.
    destruct cl; simpl; rewrite Hb; apply Hr.
  - unfold askAi, init_unless_any_client, bind, get_this, try_catch, template. simpl.
    rewrite Hq, Hn.
    destruct cl; simpl; rewrite Hb; apply Hr.
Qed.

Lemma transport_failure_is_wrapped_witness :
  mode (this (Sample.used Sample.failing)) = Some DirectEndpoint
  /\ customHttpClient (this (Sample.used Sample.failing))
     = Some (direct_client Sample.failing)
  /\ (forall body,
        backend Sample.failing (calls (Sample.used Sample.failing))
          (direct_client Sample.failing) path body
        = Throw (AxiosError "Request failed with status code 500"
                   (Some {| Axios.status := 500;
                            Axios.data := JObj [("message", JStr "boom")] |})))
  /\ Js.to_string (Js.get (JObj Sample.question) "question") = Some "why?"
  /\ Js.to_string (Js.get (JObj Sample.question) "forNode") = Some "Code"
  /\ fst (chat Sample.failing Sample.request Sample.alice (Sample.used Sample.failing))
     = Throw (ErrorObject "Error" "Custom AI service error: 500 - boom")
  /\ fst (applySuggestion Sample.failing Sample.request Sample.alice
            (Sample.used Sample.failing))
     = Throw (ErrorObject "Error" "Custom AI service error: 500 - boom")
  /\ fst (askAi Sample.failing Sample.question Sample.alice (Sample.used Sample.failing))
     = Throw (ErrorObject "Error" "Custom AI service error: 500 - boom")
  /\ includes "Custom AI service error: 500 - boom" "500" = true
  /\ includes "Custom AI service error: 500 - boom" "boom" = true.
Proof.
  split; [reflexivity |]. split; [reflexivity |]. split; [reflexivity |].
  split; [reflexivity |]. split; [reflexivity |].
  apply (transport_failure_is_wrapped Sample.failing (Sample.used Sample.failing)
           (direct_client Sample.failing) "Request failed with status code 500"
           Sample.request Sample.request Sample.question Sample.alice "why?" "Code");
    reflexivity.
Defined.

(** C5.  The failing input: on a new service under a configured endpoint,
    two consecutive createFreeAiCredits build two HTTP clients, one in each
    call. *)
Theorem credits_twice_build_two_clients :
  calls (run Sample.failing
           [CreateFreeAiCredits Sample.alice; CreateFreeAiCredits Sample.alice] start)
  = [AxiosCreate (direct_client Sample.failing); AxiosCreate (direct_client Sample.failing)]
  /\ constructions
       (calls (run Sample.failing
                 [CreateFreeAiCredits Sample.alice; CreateFreeAiCredits Sample.alice] start))
     = 2%nat.
Proof. vm_compute. split; reflexivity. Qed.

(** C6.  Under a fixed configuration, whatever operations have brought the
    service from its construction to a state, and whatever sequence of the
    four operations follows from that state, every state between the
    operations has at most one of the vendor client and the direct HTTP
    client populated; in the state before initialisation both are absent. *)
Theorem at_most_one_handle (w : World) (before ops : list Operation) :
  is_some (client (this start)) = false
  /\ is_some (customHttpClient (this start)) = false
  /\ Forall (fun s => at_most_one (this s) = true) (visited w ops (run w before start)).
Proof.
  split; [reflexivity |]. split; [reflexivity |].
  apply visited_at_most_one, coherent_run, coherent_fresh.
Qed.

(** C7, amended.  In VendorManaged mode chat, applySuggestion and askAi call
    the vendor method of the same name with the payload and the user
    reference [{id: user.id}]; createFreeAiCredits calls
    generateAiCreditsCredentials with the user object itself as its only
    argument.  Each returns the result of the vendor call, or throws its
    failure, unmodified, makes no other call and writes no field. *)
Theorem vendor_mode_delegates (w : World) (s : State) (c : AiAssistantClient.t)
    (payload user : JsObject) :
  mode (this s) = Some VendorManaged ->
  client (this s) = Some c ->
  delegates w s (chat w payload user s) c AiAssistantClient.chat
    [JObj payload; user_ref user]
  /\ delegates w s (applySuggestion w payload user s) c AiAssistantClient.applySuggestion
       [JObj payload; user_ref user]
  /\ delegates w s (askAi w payload user s) c AiAssistantClient.askAi
       [JObj payload; user_ref user]
  /\ delegates w s (createFreeAiCredits w user s) c
       AiAssistantClient.generateAiCreditsCredentials [JObj user].
Proof.
  intros Hm Hc. repeat split; vendor_dispatch.
Qed.

Lemma vendor_mode_delegates_witness :
  mode (this (Sample.used Sample.unconfigured)) = Some VendorManaged
  /\ client (this (Sample.used Sample.unconfigured)) = Some (vendor_client Sample.unconfigured)
  /\ delegates Sample.unconfigured (Sample.used Sample.unconfigured)
       (chat Sample.unconfigured Sample.request Sample.alice
          (Sample.used Sample.unconfigured))
       (vendor_client Sample.unconfigured) AiAssistantClient.chat
       [JObj Sample.request; user_ref Sample.alice]
  /\ delegates Sample.unconfigured (Sample.used Sample.unconfigured)
       (applySuggestion Sample.unconfigured Sample.request Sample.alice
          (Sample.used Sample.unconfigured))
       (vendor_client Sample.unconfigured) AiAssistantClient.applySuggestion
       [JObj Sample.request; user_ref Sample.alice]
  /\ delegates Sample.unconfigured (Sample.used Sample.unconfigured)
       (askAi Sample.unconfigured Sample.request Sample.alice
          (Sample.used Sample.unconfigured))
       (vendor_client Sample.unconfigured) AiAssistantClient.askAi
       [JObj Sample.request; user_ref Sample.alice]
  /\ delegates Sample.unconfigured (Sample.used Sample.unconfigured)
       (createFreeAiCredits Sample.unconfigured Sample.alice
          (Sample.used Sample.unconfigured))
       (vendor_client Sample.unconfigured) AiAssistantClient.generateAiCreditsCredentials
       [JObj Sample.alice].
Proof.
  split; [reflexivity |]. split; [reflexivity |].
  apply (vendor_mode_delegates Sample.unconfigured (Sample.used Sample.unconfigured)
           (vendor_client Sample.unconfigured) Sample.request Sample.alice);
    reflexivity.
Defined.

(** C7 as stated fails for createFreeAiCredits: the vendor method receives
    the user object, with all its properties, and not the reference
    [{id: user.id}], whatever is taken for the request payload. *)
Lemma credits_pass_the_user_itself :
  mode (this (Sample.used Sample.unconfigured)) = Some VendorManaged
  /\ calls (snd (createFreeAiCredits Sample.unconfigured Sample.alice
                   (Sample.used Sample.unconfigured)))
     = (calls (Sample.used Sample.unconfigured)
        ++ [VendorCall (vendor_client Sample.unconfigured)
              AiAssistantClient.generateAiCreditsCredentials [JObj Sample.alice]])%list
  /\ ~ (exists payload,
          calls (snd (createFreeAiCredits Sample.unconfigured Sample.alice
                        (Sample.used Sample.unconfigured)))
          = (calls (Sample.used Sample.unconfigured)
             ++ [VendorCall (vendor_client Sample.unconfigured)
                   AiAssistantClient.generateAiCreditsCredentials
                   (payload ++ [user_ref Sample.alice])])%list).
Proof.
  split; [reflexivity |]. split; [vm_compute; reflexivity |].
  intros [payload H]. vm_compute in H.
  destruct payload as [| a [| b rest]]; simpl in H; discriminate.
Qed.

(** C8.  In DirectEndpoint mode, under the configuration that selected it
    and with no vendor client, createFreeAiCredits throws the error of the
    assertion, "Assistant client not setup".  The only call it makes is the
    construction inside [init]: no request goes to the endpoint, and the
    vendor SDK, which alone serves credits, is not called. *)
Theorem credits_fail_in_direct_mode (w : World) (user : JsObject) (s : State) :
  endpoint_valid w = true ->
  mode (this s) = Some DirectEndpoint ->
  client (this s) = None ->
  fst (createFreeAiCredits w user s) = Throw (ErrorObject "Error" "Assistant client not setup")
  /\ calls (snd (createFreeAiCredits w user s)) = (calls s ++ [AxiosCreate (direct_client w)])%list
  /\ mode (this (snd (createFreeAiCredits w user s))) = Some DirectEndpoint
  /\ client (this (snd (createFreeAiCredits w user s))) = None.
Proof.
  intros Hv Hm Hc.
  destruct (credits_need_vendor_client w user s Hv Hc) as (Hr & Hcs & Ht).
  rewrite Ht. repeat split; assumption || reflexivity.
Qed.

Lemma credits_fail_in_direct_mode_witness :
  endpoint_valid Sample.failing = true
  /\ mode (this (Sample.used Sample.failing)) = Some DirectEndpoint
  /\ client (this (Sample.used Sample.failing)) = None
  /\ fst (createFreeAiCredits Sample.failing Sample.alice (Sample.used Sample.failing))
     = Throw (ErrorObject "Error" "Assistant client not setup")
  /\ calls (snd (createFreeAiCredits Sample.failing Sample.alice
                   (Sample.used Sample.failing)))
     = (calls (Sample.used Sample.failing) ++ [AxiosCreate (direct_client Sample.failing)])%list
  /\ mode (this (snd (createFreeAiCredits Sample.failing Sample.alice
                        (Sample.used Sample.failing))))
     = Some DirectEndpoint
  /\ client (this (snd (createFreeAiCredits Sample.failing Sample.alice
                          (Sample.used Sample.failing))))
     = None.
Proof.
  split; [reflexivity |]. split; [reflexivity |]. split; [reflexivity |].
  apply (credits_fail_in_direct_mode Sample.failing Sample.alice
           (Sample.used Sample.failing));
    reflexivity.
Defined.

(** C9.  When the resolved configuration selects the direct endpoint, the
    HTTP client that [init] stores carries the default header X-Model
    exactly when the resolved model is a non-empty string, and the header's
    value is then that model. *)
Theorem x_model_header_iff_model (w : World) (s : State) :
  endpoint_valid w = true ->
  exists http,
    customHttpClient (this (snd (init w s))) = Some http
    /\ header "X-Model" (Axios.headers http)
       = (if truthy_str (resolved_model w) then resolved_model w else None)
    /\ ((exists v, header "X-Model" (Axios.headers http) = Some v)
        <-> truthy_str (resolved_model w) = true).
Proof.
  intros Hv. exists (direct_client w).
  assert (Hh : header "X-Model" (Axios.headers (direct_client w))
               = if truthy_str (resolved_model w) then resolved_model w else None).
  { unfold direct_client, custom_config, spread_model. simpl.
    destruct (resolved_model w) as [m |]; simpl; [| reflexivity].
    destruct (nonempty m); reflexivity. }
  split; [rewrite init_this; unfold init_fields; rewrite Hv; reflexivity |].
  split; [exact Hh |]. split.
  - intros [v Hx]. rewrite Hh in Hx.
    destruct (truthy_str (resolved_model w)); [reflexivity | discriminate].
  - intros Ht. rewrite Hh, Ht.
    destruct (resolved_model w) as [m |]; [now exists m | discriminate].
Qed.

Lemma x_model_header_iff_model_witness :
  endpoint_valid Sample.failing = true
  /\ exists http,
       customHttpClient (this (snd (init Sample.failing start))) = Some http
       /\ header "X-Model" (Axios.headers http)
          = (if truthy_str (resolved_model Sample.failing)
             then resolved_model Sample.failing else None)
       /\ ((exists v, header "X-Model" (Axios.headers http) = Some v)
           <-> truthy_str (resolved_model Sample.failing) = true).
Proof.
  split; [reflexivity |].
  apply (x_model_header_iff_model Sample.failing start). reflexivity.
Defined.

(** C10.  The entitlement is read and logged, and nothing else: two runs of
    [init] from the same state in worlds that differ only in what
    isAiAssistantEnabled() returns both return, leave the same fields (the
    same flag and the same client handles, hence the same mode) and make the
    same call to build the client; the value read appears on the console. *)
Theorem entitlement_is_only_logged (w : World) (s : State) (b1 b2 : bool) :
  fst (init (with_entitlement b1 w) s) = Return tt
  /\ fst (init (with_entitlement b2 w) s) = Return tt
  /\ this (snd (init (with_entitlement b1 w) s)) = this (snd (init (with_entitlement b2 w) s))
  /\ calls (snd (init (with_entitlement b1 w) s)) = calls (snd (init (with_entitlement b2 w) s))
  /\ mode (this (snd (init (with_entitlement b1 w) s)))
     = mode (this (snd (init (with_entitlement b2 w) s)))
  /\ In (to_stdout, [JStr "🔧 AI Assistant enabled:"; JBool b1])
        (console (snd (init (with_entitlement b1 w) s))).
Proof.
  assert (Hthis : this (snd (init (with_entitlement b1 w) s))
                  = this (snd (init (with_entitlement b2 w) s))).
  { rewrite !init_this. reflexivity. }
  repeat split.
  - apply init_returns.
  - apply init_returns.
  - exact Hthis.
  - rewrite !init_calls. reflexivity.
  - now rewrite Hthis.
  - unfold init. simpl.
    destruct b1;
      destruct (truthy_str (resolved_baseUrl (with_entitlement _ w))
                && truthy_str (resolved_apiKey (with_entitlement _ w)));
      simpl; repeat (apply in_or_app; first [right; left; reflexivity | left]).
Qed.

(** ** The life of the service under one configuration *)

Lemma guard_open_fresh op : guard_open op fresh = true.
Proof. destruct op; reflexivity. Qed.

Lemma init_fields_again w : init_fields w (init_fields w fresh) = init_fields w fresh.
Proof. unfold init_fields. destruct (endpoint_valid w); reflexivity. Qed.

Lemma perform_initialised w op s :
  this s = init_fields w fresh -> this (snd (perform w op s)) = init_fields w fresh.
Proof.
  intros H. rewrite perform_this, H.
  destruct (guard_open op (init_fields w fresh)); [apply init_fields_again | reflexivity].
Qed.

Lemma run_initialised w ops :
  forall s, this s = init_fields w fresh -> this (run w ops s) = init_fields w fresh.
Proof.
  induction ops as [| op rest IH]; intros s H; simpl.
  - assumption.
  - apply IH. now apply perform_initialised.
Qed.

Lemma perform_start w op s :
  this s = fresh -> this (snd (perform w op s)) = init_fields w fresh.
Proof. intros H. now rewrite perform_this, H, guard_open_fresh. Qed.

(** X1.  After any sequence of at least one operation on a new service,
    whether the operations returned or threw, the three fields are those one
    run of [init] leaves; the mode is then DirectEndpoint under a usable
    endpoint and VendorManaged otherwise, and later operations never change
    it. *)
Theorem every_operation_initialises (w : World) (op : Operation) (ops : list Operation) :
  this (run w (op :: ops) start) = init_fields w fresh
  /\ mode (this (run w (op :: ops) start))
     = Some (if endpoint_valid w then DirectEndpoint else VendorManaged).
Proof.
  assert (H : this (run w (op :: ops) start) = init_fields w fresh).
  { simpl. apply run_initialised. now apply perform_start. }
  split; [exact H |]. rewrite H. unfold init_fields.
  destruct (endpoint_valid w); reflexivity.
Qed.

Lemma init_fields_keeps w t :
  implb (is_some (client t)) (is_some (client (init_fields w t))) = true
  /\ implb (is_some (customHttpClient t)) (is_some (customHttpClient (init_fields w t))) = true
  /\ implb (useCustomEndpoint t) (useCustomEndpoint (init_fields w t)) = true.
Proof.
  unfold init_fields.
  destruct (endpoint_valid w), (client t), (customHttpClient t), (useCustomEndpoint t);
    repeat split.
Qed.

Lemma implb_trans a b c : implb a b = true -> implb b c = true -> implb a c = true.
Proof. destruct a, b, c; simpl; auto. Qed.

Lemma implb_refl a : implb a a = true.
Proof. destruct a; reflexivity. Qed.

(** X2.  No operation, from any state and under any configuration, ever
    clears a client handle or resets the custom-endpoint flag: what is
    populated before a sequence of operations is populated after it. *)
Theorem handles_are_never_dropped (w : World) (ops : list Operation) (s : State) :
  implb (is_some (client (this s))) (is_some (client (this (run w ops s)))) = true
  /\ implb (is_some (customHttpClient (this s)))
       (is_some (customHttpClient (this (run w ops s)))) = true
  /\ implb (useCustomEndpoint (this s)) (useCustomEndpoint (this (run w ops s))) = true.
Proof.
  revert s. induction ops as [| op rest IH]; intros s; simpl.
  - repeat split; apply implb_refl.
  - destruct (IH (snd (perform w op s))) as (H1 & H2 & H3).
    assert (K : implb (is_some (client (this s)))
                  (is_some (client (this (snd (perform w op s))))) = true
                /\ implb (is_some (customHttpClient (this s)))
                     (is_some (customHttpClient (this (snd (perform w op s))))) = true
                /\ implb (useCustomEndpoint (this s))
                     (useCustomEndpoint (this (snd (perform w op s)))) = true).
    { rewrite perform_this. destruct (guard_open op (this s)).
      - apply init_fields_keeps.
      - repeat split; apply implb_refl. }
    destruct K as (K1 & K2 & K3).
    repeat split; eapply implb_trans; eassumption.
Qed.

(** X3.  chat, applySuggestion and askAi initialise at most once: any
    sequence of them, from any state, builds at most one client, and none
    when a handle is already there. *)
Theorem translated_operations_initialise_once (w : World) (ops : list Operation) (s : State) :
  forallb (fun op => negb (is_credits op)) ops = true ->
  constructions (calls (run w ops s))
  = (constructions (calls s)
     + (if has_handle (this s) then 0 else if starts_translated ops then 1 else 0))%nat.
Proof.
  intros Hops. destruct ops as [| op rest]; simpl in *.
  - destruct (has_handle (this s)); lia.
  - apply andb_prop in Hops as [Hop Hrest].
    destruct (translated_build_at_most_one w rest Hrest (snd (perform w op s))) as [_ Hsame].
    apply negb_true_iff in Hop.
    rewrite Hsame by (now apply has_handle_perform).
    rewrite perform_constructions. unfold guard_open. rewrite Hop. simpl.
    destruct (has_handle (this s)); simpl; lia.
Qed.

Lemma translated_operations_initialise_once_witness :
  forallb (fun op => negb (is_credits op))
    [Chat Sample.request Sample.alice; AskAi Sample.question Sample.alice;
     ApplySuggestion Sample.request Sample.alice] = true
  /\ constructions
       (calls (run Sample.failing
                 [Chat Sample.request Sample.alice; AskAi Sample.question Sample.alice;
                  ApplySuggestion Sample.request Sample.alice] start))
     = (constructions (calls start)
        + (if has_handle (this start) then 0
           else if starts_translated
                     [Chat Sample.request Sample.alice; AskAi Sample.question Sample.alice;
                      ApplySuggestion Sample.request Sample.alice]
                then 1 else 0))%nat.
Proof.
  split; [reflexivity |].
  apply (translated_operations_initialise_once Sample.failing
           [Chat Sample.request Sample.alice; AskAi Sample.question Sample.alice;
            ApplySuggestion Sample.request Sample.alice] start).
  reflexivity.
Defined.

Lemma count_credits_cons op rest :
  count_credits (op :: rest)
  = ((if is_credits op then 1 else 0) + count_credits rest)%nat.
Proof. unfold count_credits. simpl. destruct (is_credits op); reflexivity. Qed.

Lemma direct_fields_rebuild w ops :
  endpoint_valid w = true ->
  forall s, this s = init_fields w fresh ->
            constructions (calls (run w ops s))
            = (constructions (calls s) + count_credits ops)%nat.
Proof.
  intros Hv. induction ops as [| op rest IH]; intros s Hs; simpl.
  - unfold count_credits. simpl. lia.
  - rewrite IH by (now apply perform_initialised).
    rewrite perform_constructions, count_credits_cons, Hs.
    unfold guard_open, init_fields, has_handle. rewrite Hv. simpl.
    destruct (is_credits op); simpl; lia.
Qed.

(** X4.  Under a usable endpoint a new service builds one HTTP client in
    its first operation and one more in every later createFreeAiCredits: over
    a sequence of operations the clients built are as many as its
    createFreeAiCredits, plus one when the sequence starts with another
    operation. *)
Theorem configured_endpoint_client_count (w : World) (ops : list Operation) :
  endpoint_valid w = true ->
  constructions (calls (run w ops start))
  = (count_credits ops + (if starts_translated ops then 1 else 0))%nat.
Proof.
  intros Hv. destruct ops as [| op rest]; [reflexivity |].
  simpl. rewrite (direct_fields_rebuild w rest Hv) by (now apply perform_start).
  rewrite perform_constructions, count_credits_cons.
  simpl. rewrite guard_open_fresh. destruct (is_credits op); simpl; lia.
Qed.

Lemma configured_endpoint_client_count_witness :
  endpoint_valid Sample.failing = true
  /\ constructions
       (calls (run Sample.failing
                 [Chat Sample.request Sample.alice; CreateFreeAiCredits Sample.alice;
                  AskAi Sample.question Sample.alice; CreateFreeAiCredits Sample.alice]
                 start))
     = (count_credits
          [Chat Sample.request Sample.alice; CreateFreeAiCredits Sample.alice;
           AskAi Sample.question Sample.alice; CreateFreeAiCredits Sample.alice]
        + (if starts_translated
                [Chat Sample.request Sample.alice; CreateFreeAiCredits Sample.alice;
                 AskAi Sample.question Sample.alice; CreateFreeAiCredits Sample.alice]
           then 1 else 0))%nat.
Proof.
  split; [reflexivity |].
  apply (configured_endpoint_client_count Sample.failing
           [Chat Sample.request Sample.alice; CreateFreeAiCredits Sample.alice;
            AskAi Sample.question Sample.alice; CreateFreeAiCredits Sample.alice]).
  reflexivity.
Defined.

Lemma vendor_fields_build_nothing w ops :
  endpoint_valid w = false ->
  forall s, this s = init_fields w fresh ->
            constructions (calls (run w ops s)) = constructions (calls s).
Proof.
  intros Hv. induction ops as [| op rest IH]; intros s Hs; simpl.
  - reflexivity.
  - rewrite IH by (now apply perform_initialised).
    rewrite perform_constructions, Hs.
    unfold guard_open, init_fields, has_handle. rewrite Hv. simpl.
    destruct (is_credits op); reflexivity.
Qed.

(** X5.  Without a usable endpoint a new service builds the vendor client
    in its first operation, whichever of the four it is, and never builds
    another client. *)
Theorem unconfigured_builds_one_client (w : World) (op : Operation) (ops : list Operation) :
  endpoint_valid w = false ->
  constructions (calls (run w (op :: ops) start)) = 1%nat
  /\ client (this (run w (op :: ops) start)) = Some (vendor_client w).
Proof.
  intros Hv. split.
  - simpl. rewrite (vendor_fields_build_nothing w ops Hv) by (now apply perform_start).
    rewrite perform_constructions. simpl. now rewrite guard_open_fresh.
  - rewrite (proj1 (every_operation_initialises w op ops)).
    unfold init_fields. now rewrite Hv.
Qed.

Lemma unconfigured_builds_one_client_witness :
  endpoint_valid Sample.unconfigured = false
  /\ constructions
       (calls (run Sample.unconfigured
                 (CreateFreeAiCredits Sample.alice
                  :: [Chat Sample.request Sample.alice; CreateFreeAiCredits Sample.alice])
                 start))
     = 1%nat
  /\ client (this (run Sample.unconfigured
                     (CreateFreeAiCredits Sample.alice
                      :: [Chat Sample.request Sample.alice; CreateFreeAiCredits Sample.alice])
                     start))
     = Some (vendor_client Sample.unconfigured).
Proof.
  split; [reflexivity |].
  apply (unconfigured_builds_one_client Sample.unconfigured
           (CreateFreeAiCredits Sample.alice)
           [Chat Sample.request Sample.alice; CreateFreeAiCredits Sample.alice]).
  reflexivity.
Defined.

(** ** Lazy initialisation *)

Lemma no_handle_fields t :
  has_handle t = false -> client t = None /\ customHttpClient t = None.
Proof.
  unfold has_handle. destruct (client t), (customHttpClient t); simpl;
    intros H; try discriminate. split; reflexivity.
Qed.

Lemma guard_runs_init w s :
  has_handle (this s) = false -> init_unless_any_client w s = init w s.
Proof.
  intros H. destruct (no_handle_fields _ H) as [Hc Hh].
  unfold init_unless_any_client, bind, get_this. now rewrite Hc, Hh.
Qed.

Lemma guard_skips_init w s :
  has_handle (this s) = true -> init_unless_any_client w s = (Return tt, s).
Proof.
  unfold has_handle, init_unless_any_client, bind, get_this.
  destruct (client (this s)), (customHttpClient (this s)); simpl;
    intros H; try discriminate; reflexivity.
Qed.

Lemma init_result w s : init w s = (Return tt, snd (init w s)).
Proof.
  pose proof (init_returns w s) as H. destruct (init w s) as [r s']. simpl in *. now subst.
Qed.

(** An operation guarded by [init_unless_any_client], started without any
    handle, is the same operation started after an explicit [init]. *)
Lemma guarded_after_init {A} w (k : unit -> M A) s :
  has_handle (this s) = false ->
  bind (init_unless_any_client w) k s = bind (init_unless_any_client w) k (snd (init w s)).
Proof.
  intros H. unfold bind. rewrite (guard_runs_init w s H).
  pose proof (init_returns w s) as Hr. pose proof (init_this w s) as Ht.
  destruct (init w s) as [r s1]; simpl in *. subst r.
  rewrite guard_skips_init; [reflexivity |].
  rewrite Ht. apply has_handle_init_fields.
Qed.

(** X6.  Initialisation is lazy and transparent for the three translated
    operations: started on a service without any client handle, each of
    chat, applySuggestion and askAi completes exactly as it does, and leaves
    exactly the state it leaves, when [init] has been run first. *)
Theorem first_use_is_init_then_use (w : World) (payload user : JsObject) (s : State) :
  has_handle (this s) = false ->
  chat w payload user s = chat w payload user (snd (init w s))
  /\ applySuggestion w payload user s = applySuggestion w payload user (snd (init w s))
  /\ askAi w payload user s = askAi w payload user (snd (init w s)).
Proof.
  intros H. repeat split.
  - unfold chat. now apply guarded_after_init.
  - unfold applySuggestion. now apply guarded_after_init.
  - unfold askAi. now apply guarded_after_init.
Qed.

Lemma first_use_is_init_then_use_witness :
  has_handle (this start) = false
  /\ chat (Sample.answering (JStr "X")) Sample.request Sample.alice start
     = chat (Sample.answering (JStr "X")) Sample.request Sample.alice
         (snd (init (Sample.answering (JStr "X")) start))
  /\ applySuggestion (Sample.answering (JStr "X")) Sample.request Sample.alice start
     = applySuggestion (Sample.answering (JStr "X")) Sample.request Sample.alice
         (snd (init (Sample.answering (JStr "X")) start))
  /\ askAi (Sample.answering (JStr "X")) Sample.request Sample.alice start
     = askAi (Sample.answering (JStr "X")) Sample.request Sample.alice
         (snd (init (Sample.answering (JStr "X")) start)).
Proof.
  split; [reflexivity |].
  apply (first_use_is_init_then_use (Sample.answering (JStr "X"))
           Sample.request Sample.alice start).
  reflexivity.
Defined.

(** X7.  Without a usable endpoint, createFreeAiCredits on a service that
    has no vendor client builds that client and delegates to it at once: it
    completes as generateAiCreditsCredentials(user) completes, with its
    result or its failure, after exactly two calls, the construction and the
    vendor call. *)
Theorem credits_initialise_and_delegate (w : World) (user : JsObject) (s : State) :
  endpoint_valid w = false ->
  client (this s) = None ->
  fst (createFreeAiCredits w user s)
  = sdk w (calls s ++ [NewAiAssistantClient (vendor_client w)])%list (vendor_client w)
      AiAssistantClient.generateAiCreditsCredentials [JObj user]
  /\ calls (snd (createFreeAiCredits w user s))
     = (calls s
        ++ [NewAiAssistantClient (vendor_client w);
            VendorCall (vendor_client w) AiAssistantClient.generateAiCreditsCredentials
              [JObj user]])%list
  /\ client (this (snd (createFreeAiCredits w user s))) = Some (vendor_client w).
Proof.
  intros Hv Hc.
  pose proof (init_this w s) as Ht.
  pose proof (init_calls w s) as Hcs.
  unfold init_fields, init_call in *. rewrite Hv in *.
  unfold createFreeAiCredits, init_unless_vendor_client, bind, get_this.
  rewrite Hc. simpl. rewrite (init_result w s). simpl.
  rewrite Ht. simpl. rewrite Hcs, Ht, <- app_assoc. simpl. auto.
Qed.

Lemma credits_initialise_and_delegate_witness :
  endpoint_valid Sample.unconfigured = false
  /\ client (this start) = None
  /\ fst (createFreeAiCredits Sample.unconfigured Sample.alice start)
     = sdk Sample.unconfigured
         (calls start ++ [NewAiAssistantClient (vendor_client Sample.unconfigured)])%list
         (vendor_client Sample.unconfigured)
         AiAssistantClient.generateAiCreditsCredentials [JObj Sample.alice]
  /\ calls (snd (createFreeAiCredits Sample.unconfigured Sample.alice start))
     = (calls start
        ++ [NewAiAssistantClient (vendor_client Sample.unconfigured);
            VendorCall (vendor_client Sample.unconfigured)
              AiAssistantClient.generateAiCreditsCredentials [JObj Sample.alice]])%list
  /\ client (this (snd (createFreeAiCredits Sample.unconfigured Sample.alice start)))
     = Some (vendor_client Sample.unconfigured).
Proof.
  split; [reflexivity |]. split; [reflexivity |].
  apply (credits_initialise_and_delegate Sample.unconfigured Sample.alice start);
    reflexivity.
Defined.

(** ** Failures of the direct endpoint *)

(** The [catch] block never completes normally. *)
Lemma rethrow_throws {A} w e s : exists e', fst (@rethrow w A e s) = Throw e'.
Proof.
  unfold rethrow, bind, console_error, print, template. simpl.
  destruct (Js.to_string (Js.or (response_status e) (JStr "Unknown"))); simpl;
    [| eexists; reflexivity].
  destruct (Js.to_string
              (Js.or (Js.opt (response_data e) "message") (JStr (message_of e))));
    simpl; eexists; reflexivity.
Qed.

Lemma status_text_spec e :
  Js.to_string (Js.or (response_status e) (JStr "Unknown")) = Some (status_text e).
Proof.
  unfold response_status, status_text, Js.or.
  destruct (response_of e) as [r |]; simpl; [| reflexivity].
  destruct (Number.truthy (Axios.status r)); reflexivity.
Qed.

(** The [catch] block on an error whose response, if any, carries no
    message. *)
Lemma rethrow_own_message {A} w e s :
  Js.truthy (Js.opt (response_data e) "message") = false ->
  fst (@rethrow w A e s)
  = Throw (ErrorObject "Error"
             ("Custom AI service error: " ++ status_text e ++ " - " ++ message_of e)).
Proof.
  intros H. unfold rethrow, bind, console_error, print, template. simpl.
  rewrite status_text_spec. simpl. rewrite or_falsy by assumption. reflexivity.
Qed.

(** The three translated operations in direct mode, reduced up to the answer
    of the backend. *)
Ltac direct_dispatch Hm :=
  apply mode_direct in Hm as [? _];
  match goal with
  | s : State |- _ =>
      destruct s as [[cl cu fl] con cs]; simpl in *; subst;
      unfold chat, applySuggestion, askAi, init_unless_any_client, bind, get_this,
        try_catch, template;
      simpl; destruct cl; simpl
  end.

(** X8.  In DirectEndpoint mode, when the endpoint rejects the request,
    whatever the error, none of chat, applySuggestion and askAi returns a
    result: each throws. *)
Theorem rejection_is_never_a_result (w : World) (s : State) (http : Axios.Instance)
    (e : JsError) (payload user : JsObject) :
  mode (this s) = Some DirectEndpoint ->
  customHttpClient (this s) = Some http ->
  (forall body, backend w (calls s) http path body = Throw e) ->
  (exists e', fst (chat w payload user s) = Throw e')
  /\ (exists e', fst (applySuggestion w payload user s) = Throw e')
  /\ (exists e', fst (askAi w payload user s) = Throw e').
Proof.
  intros Hm Hh Hb. repeat split.
  - direct_dispatch Hm; rewrite Hb; apply rethrow_throws.
  - direct_dispatch Hm; rewrite Hb; apply rethrow_throws.
  - direct_dispatch Hm; unfold type_error, throw, ret;
      (destruct (Js.to_string (Js.of_option (Js.lookup "question" payload)));
       [| apply rethrow_throws]);
      (destruct (Js.to_string (Js.of_option (Js.lookup "forNode" payload)));
       [| apply rethrow_throws]);
      simpl; rewrite Hb; apply rethrow_throws.
Qed.

Lemma rejection_is_never_a_result_witness :
  mode (this (Sample.used Sample.failing)) = Some DirectEndpoint
  /\ customHttpClient (this (Sample.used Sample.failing)) = Some (direct_client Sample.failing)
  /\ (forall body,
        backend Sample.failing (calls (Sample.used Sample.failing))
          (direct_client Sample.failing) path body
        = Throw Sample.boom)
  /\ (exists e', fst (chat Sample.failing Sample.request Sample.alice
                        (Sample.used Sample.failing)) = Throw e')
  /\ (exists e', fst (applySuggestion Sample.failing Sample.request Sample.alice
                        (Sample.used Sample.failing)) = Throw e')
  /\ (exists e', fst (askAi Sample.failing Sample.request Sample.alice
                        (Sample.used Sample.failing)) = Throw e').
Proof.
  split; [reflexivity |]. split; [reflexivity |]. split; [reflexivity |].
  apply (rejection_is_never_a_result Sample.failing (Sample.used Sample.failing)
           (direct_client Sample.failing) Sample.boom Sample.request Sample.alice);
    reflexivity.
Defined.

(** X9.  In DirectEndpoint mode, when the request fails and the failure
    carries no server message (no response at all, as for a network error or
    a timeout, or a response whose body has no truthy [message]), each of
    chat, applySuggestion and askAi throws the error
    "Custom AI service error: <status> - <message of the failure>", where the
    status is that of the response, or "Unknown" when there is no response
    or its status is zero. *)
Theorem failure_without_server_message (w : World) (s : State) (http : Axios.Instance)
    (e : JsError) (payload suggestion ask user : JsObject) (q n : string) :
  mode (this s) = Some DirectEndpoint ->
  customHttpClient (this s) = Some http ->
  (forall body, backend w (calls s) http path body = Throw e) ->
  Js.truthy (Js.opt (response_data e) "message") = false ->
  Js.to_string (Js.get (JObj ask) "question") = Some q ->
  Js.to_string (Js.get (JObj ask) "forNode") = Some n ->
  fst (chat w payload user s)
  = Throw (ErrorObject "Error"
             ("Custom AI service error: " ++ status_text e ++ " - " ++ message_of e))
  /\ fst (applySuggestion w suggestion user s)
     = Throw (ErrorObject "Error"
                ("Custom AI service error: " ++ status_text e ++ " - " ++ message_of e))
  /\ fst (askAi w ask user s)
     = Throw (ErrorObject "Error"
                ("Custom AI service error: " ++ status_text e ++ " - " ++ message_of e)).
Proof.
  intros Hm Hh Hb He Hq Hn. repeat split.
  - direct_dispatch Hm; rewrite Hb; now apply rethrow_own_message.
  - direct_dispatch Hm; rewrite Hb; now apply rethrow_own_message.
  - direct_dispatch Hm; rewrite Hq, Hn; simpl; rewrite Hb; now apply rethrow_own_message.
Qed.

Lemma failure_without_server_message_witness :
  mode (this (Sample.used (Sample.configured (Throw (AxiosError "timeout of 30000ms exceeded" None)))))
  = Some DirectEndpoint
  /\ Js.truthy (Js.opt (response_data (AxiosError "timeout of 30000ms exceeded" None)) "message")
     = false
  /\ fst (chat (Sample.configured (Throw (AxiosError "timeout of 30000ms exceeded" None)))
            Sample.request Sample.alice
            (Sample.used (Sample.configured (Throw (AxiosError "timeout of 30000ms exceeded" None)))))
     = Throw (ErrorObject "Error" "Custom AI service error: Unknown - timeout of 30000ms exceeded")
  /\ fst (applySuggestion
            (Sample.configured (Throw (AxiosError "timeout of 30000ms exceeded" None)))
            Sample.request Sample.alice
            (Sample.used (Sample.configured (Throw (AxiosError "timeout of 30000ms exceeded" None)))))
     = Throw (ErrorObject "Error" "Custom AI service error: Unknown - timeout of 30000ms exceeded")
  /\ fst (askAi (Sample.configured (Throw (AxiosError "timeout of 30000ms exceeded" None)))
            Sample.question Sample.alice
            (Sample.used (Sample.configured (Throw (AxiosError "timeout of 30000ms exceeded" None)))))
     = Throw (ErrorObject "Error" "Custom AI service error: Unknown - timeout of 30000ms exceeded").
Proof.
  split; [reflexivity |]. split; [reflexivity |].
  apply (failure_without_server_message
           (Sample.configured (Throw (AxiosError "timeout of 30000ms exceeded" None)))
           (Sample.used (Sample.configured (Throw (AxiosError "timeout of 30000ms exceeded" None))))
           (direct_client (Sample.configured (Throw (AxiosError "timeout of 30000ms exceeded" None))))
           (AxiosError "timeout of 30000ms exceeded" None)
           Sample.request Sample.request Sample.question Sample.alice "why?" "Code");
    reflexivity.
Defined.

(** X10.  In DirectEndpoint mode, when the endpoint answers with a body
    that is [null] or [undefined], none of chat, applySuggestion and askAi
    falls back to its default: reading [choices] of the body fails, and each
    throws "Custom AI service error: Unknown - " followed by the message of
    that TypeError. *)
Theorem null_body_is_an_error (w : World) (s : State) (http : Axios.Instance)
    (response : Axios.Response) (payload suggestion ask user : JsObject) (q n : string) :
  mode (this s) = Some DirectEndpoint ->
  customHttpClient (this s) = Some http ->
  (forall body, backend w (calls s) http path body = Return response) ->
  Js.nullish (Axios.data response) = true ->
  Js.to_string (Js.get (JObj ask) "question") = Some q ->
  Js.to_string (Js.get (JObj ask) "forNode") = Some n ->
  fst (chat w payload user s)
  = Throw (ErrorObject "Error"
             ("Custom AI service error: Unknown - "
              ++ cannot_read (engine w) (Axios.data response) "choices"))
  /\ fst (applySuggestion w suggestion user s)
     = Throw (ErrorObject "Error"
                ("Custom AI service error: Unknown - "
                 ++ cannot_read (engine w) (Axios.data response) "choices"))
  /\ fst (askAi w ask user s)
     = Throw (ErrorObject "Error"
                ("Custom AI service error: Unknown - "
                 ++ cannot_read (engine w) (Axios.data response) "choices")).
Proof.
  intros Hm Hh Hb Hnull Hq Hn. repeat split.
  - direct_dispatch Hm; rewrite Hb; simpl; unfold first_content, member, bind;
      rewrite Hnull; unfold type_error, throw;
      rewrite rethrow_own_message by reflexivity; reflexivity.
  - direct_dispatch Hm; rewrite Hb; simpl; unfold first_content, member, bind;
      rewrite Hnull; unfold type_error, throw;
      rewrite rethrow_own_message by reflexivity; reflexivity.
  - direct_dispatch Hm; rewrite Hq, Hn; simpl; rewrite Hb; simpl;
      unfold first_content, member, bind;
      rewrite Hnull; unfold type_error, throw;
      rewrite rethrow_own_message by reflexivity; reflexivity.
Qed.

Lemma null_body_is_an_error_witness :
  mode (this (Sample.used
                (Sample.configured (Return {| Axios.status := 200; Axios.data := JNull |}))))
  = Some DirectEndpoint
  /\ Js.nullish (Axios.data {| Axios.status := 200; Axios.data := JNull |}) = true
  /\ fst (chat (Sample.configured (Return {| Axios.status := 200; Axios.data := JNull |}))
            Sample.request Sample.alice
            (Sample.used
               (Sample.configured (Return {| Axios.status := 200; Axios.data := JNull |}))))
     = Throw (ErrorObject "Error"
                ("Custom AI service error: Unknown - "
                 ++ cannot_read Sample.v8 JNull "choices"))
  /\ fst (applySuggestion
            (Sample.configured (Return {| Axios.status := 200; Axios.data := JNull |}))
            Sample.request Sample.alice
            (Sample.used
               (Sample.configured (Return {| Axios.status := 200; Axios.data := JNull |}))))
     = Throw (ErrorObject "Error"
                ("Custom AI service error: Unknown - "
                 ++ cannot_read Sample.v8 JNull "choices"))
  /\ fst (askAi (Sample.configured (Return {| Axios.status := 200; Axios.data := JNull |}))
            Sample.question Sample.alice
            (Sample.used
               (Sample.configured (Return {| Axios.status := 200; Axios.data := JNull |}))))
     = Throw (ErrorObject "Error"
                ("Custom AI service error: Unknown - "
                 ++ cannot_read Sample.v8 JNull "choices")).
Proof.
  split; [reflexivity |]. split; [reflexivity |].
  apply (null_body_is_an_error
           (Sample.configured (Return {| Axios.status := 200; Axios.data := JNull |}))
           (Sample.used
              (Sample.configured (Return {| Axios.status := 200; Axios.data := JNull |})))
           (direct_client
              (Sample.configured (Return {| Axios.status := 200; Axios.data := JNull |})))
           {| Axios.status := 200; Axios.data := JNull |}
           Sample.request Sample.request Sample.question Sample.alice "why?" "Code");
    reflexivity.
Defined.

(** The translated part of askAi, for a payload whose question and node
    name convert to strings and a response body that is neither [null] nor
    [undefined]. *)
Lemma askAi_direct w payload user s http response q n :
  mode (this s) = Some DirectEndpoint ->
  customHttpClient (this s) = Some http ->
  Js.to_string (Js.get (JObj payload) "question") = Some q ->
  Js.to_string (Js.get (JObj payload) "forNode") = Some n ->
  backend w (calls s) http path (askAi_request w q (context_text payload) n user)
  = Return response ->
  Js.nullish (Axios.data response) = false ->
  fst (askAi w payload user s)
  = Return (ask_response (Js.or (content_of (Axios.data response)) no_response)).
Proof.
  intros Hm Hh Hq Hn Hb Hnn. unfold context_text in Hb.
  direct_dispatch Hm; rewrite Hq, Hn; simpl; rewrite Hb; simpl;
    rewrite first_content_data by assumption; reflexivity.
Qed.

(** X11.  In DirectEndpoint mode, for an askAi payload whose question and
    node name convert to strings: askAi returns an object whose [code] is
    always the empty string and whose [answer] is the content of the
    response, choices[0].message.content, when that is truthy, and the
    literal "No response from AI service" when the response body, being
    neither [null] nor [undefined], has no choices or a falsy content. *)
Theorem askAi_returns_answer_or_fallback (w : World) (payload user : JsObject) (s : State)
    (http : Axios.Instance) (response : Axios.Response) (q n : string) :
  mode (this s) = Some DirectEndpoint ->
  customHttpClient (this s) = Some http ->
  Js.to_string (Js.get (JObj payload) "question") = Some q ->
  Js.to_string (Js.get (JObj payload) "forNode") = Some n ->
  backend w (calls s) http path (askAi_request w q (context_text payload) n user)
  = Return response ->
  (forall X, content_of (Axios.data response) = X ->
             Js.truthy X = true ->
             fst (askAi w payload user s)
             = Return (JObj [("answer", X); ("code", JStr EmptyString)]))
  /\ (Js.nullish (Axios.data response) = false ->
      Js.get (Axios.data response) "choices" = JUndefined ->
      fst (askAi w payload user s)
      = Return (JObj [("answer", JStr "No response from AI service");
                      ("code", JStr EmptyString)]))
  /\ (Js.nullish (Axios.data response) = false ->
      Js.truthy (content_of (Axios.data response)) = false ->
      fst (askAi w payload user s)
      = Return (JObj [("answer", JStr "No response from AI service");
                      ("code", JStr EmptyString)])).
Proof.
  intros Hm Hh Hq Hn Hb. repeat split.
  - intros X HX Ht. subst X.
    rewrite (askAi_direct w payload user s http response q n Hm Hh Hq Hn Hb)
      by (now apply truthy_content_not_nullish).
    now rewrite or_truthy.
  - intros Hnn Hc.
    rewrite (askAi_direct w payload user s http response q n Hm Hh Hq Hn Hb Hnn).
    now rewrite (content_of_no_choices _ Hc).
  - intros Hnn Hf.
    rewrite (askAi_direct w payload user s http response q n Hm Hh Hq Hn Hb Hnn).
    now rewrite or_falsy.
Qed.

Lemma askAi_returns_answer_or_fallback_witness :
  mode (this (Sample.used (Sample.answering (JStr "Because.")))) = Some DirectEndpoint
  /\ customHttpClient (this (Sample.used (Sample.answering (JStr "Because."))))
     = Some (direct_client (Sample.answering (JStr "Because.")))
  /\ Js.to_string (Js.get (JObj Sample.question) "question") = Some "why?"
  /\ Js.to_string (Js.get (JObj Sample.question) "forNode") = Some "Code"
  /\ content_of (Axios.data (Sample.completion (JStr "Because."))) = JStr "Because."
  /\ fst (askAi (Sample.answering (JStr "Because.")) Sample.question Sample.alice
            (Sample.used (Sample.answering (JStr "Because."))))
     = Return (JObj [("answer", JStr "Because."); ("code", JStr EmptyString)]).
Proof.
  repeat (split; [reflexivity |]).
  apply (askAi_returns_answer_or_fallback
           (Sample.answering (JStr "Because.")) Sample.question Sample.alice
           (Sample.used (Sample.answering (JStr "Because.")))
           (direct_client (Sample.answering (JStr "Because.")))
           (Sample.completion (JStr "Because.")) "why?" "Code"
           eq_refl eq_refl eq_refl eq_refl eq_refl);
    reflexivity.
Defined.

(** ** The calls the service makes *)

Lemma emits_silent {A} P (c : M A) :
  (forall s, calls (snd (c s)) = calls s) -> emits P c.
Proof.
  intros H s. exists []. rewrite H, app_nil_r. split; [reflexivity | constructor].
Qed.

Lemma emits_ret {A} P (a : A) : emits P (ret a).
Proof. now apply emits_silent. Qed.

Lemma emits_throw {A} P (e : JsError) : emits P (@throw A e).
Proof. now apply emits_silent. Qed.

Lemma emits_get_this P : emits P get_this.
Proof. now apply emits_silent. Qed.

Lemma emits_console_log P args : emits P (console_log args).
Proof. now apply emits_silent. Qed.

Lemma emits_console_error P args : emits P (console_error args).
Proof. now apply emits_silent. Qed.

Lemma emits_assert {A} P (condition : option A) msg : emits P (assert condition msg).
Proof. destruct condition; [apply emits_ret | apply emits_throw]. Qed.

Lemma emits_member P w v k : emits P (member w v k).
Proof. unfold member. destruct (Js.nullish v); [apply emits_throw | apply emits_ret]. Qed.

Lemma emits_template P w v : emits P (template w v).
Proof. unfold template. destruct (Js.to_string v); [apply emits_ret | apply emits_throw]. Qed.

Lemma emits_bind {A B} P (c : M A) (f : A -> M B) :
  emits P c -> (forall a, emits P (f a)) -> emits P (bind c f).
Proof.
  intros Hc Hf s. unfold bind.
  destruct (Hc s) as (l & Hl & HP).
  destruct (c s) as [[a | e] s']; simpl in *.
  - destruct (Hf a s') as (l' & Hl' & HP').
    exists (l ++ l')%list. rewrite Hl', Hl, app_assoc. split; [reflexivity |].
    apply Forall_app. now split.
  - now exists l.
Qed.

Lemma emits_try_catch {A} P (body : M A) (handler : JsError -> M A) :
  emits P body -> (forall e, emits P (handler e)) -> emits P (try_catch body handler).
Proof.
  intros Hb Hh s. unfold try_catch.
  destruct (Hb s) as (l & Hl & HP).
  destruct (body s) as [[a | e] s']; simpl in *.
  - now exists l.
  - destruct (Hh e s') as (l' & Hl' & HP').
    exists (l ++ l')%list. rewrite Hl', Hl, app_assoc. split; [reflexivity |].
    apply Forall_app. now split.
Qed.

Lemma emits_axios_post (P : Call -> Prop) w http url body :
  P (AxiosPost http url body) -> emits P (axios_post w http url body).
Proof.
  intros H s. exists [AxiosPost http url body]. split; [reflexivity |].
  constructor; [assumption | constructor].
Qed.

Lemma emits_vendor_call (P : Call -> Prop) w c m args :
  P (VendorCall c m args) -> emits P (vendor_call w c m args).
Proof.
  intros H s. exists [VendorCall c m args]. split; [reflexivity |].
  constructor; [assumption | constructor].
Qed.

Lemma emits_init (P : Call -> Prop) w : P (init_call w) -> emits P (init w).
Proof.
  intros H s. exists [init_call w]. split; [apply init_calls |].
  constructor; [assumption | constructor].
Qed.

Lemma emits_bind_ret {A B} P (a : A) (f : A -> M B) :
  emits P (f a) -> emits P (bind (ret a) f).
Proof. intros H s. apply H. Qed.

Lemma emits_bind_throw {A B} P (e : JsError) (f : A -> M B) :
  emits P (bind (throw e) f).
Proof. now apply emits_silent. Qed.

Create HintDb emits.

#[export] Hint Resolve emits_ret emits_throw emits_get_this emits_console_log
  emits_console_error emits_assert emits_member emits_template : emits.

Ltac emits_step :=
  match goal with
  | |- emits _ (bind (ret ?a) ?f) => apply (emits_bind_ret _ a f)
  | |- emits _ (bind (assert (Some ?a) _) ?f) => apply (emits_bind_ret _ a f)
  | |- emits _ (bind (assert None ?m) ?f) => apply (emits_bind_throw _ (ErrorObject "Error" m) f)
  | |- emits _ (bind (throw ?e) ?f) => apply (emits_bind_throw _ e f)
  | |- emits _ (bind _ _) => apply emits_bind; [| intros ?]
  | |- emits _ (try_catch _ _) => apply emits_try_catch; [| intros ?]
  | |- emits _ (axios_post _ _ _ _) => apply emits_axios_post
  | |- emits _ (vendor_call _ _ _ _) => apply emits_vendor_call
  | |- emits _ (match ?x with _ => _ end) => destruct x
  | |- emits _ (let _ := _ in _) => cbv zeta
  | |- emits _ _ => solve [auto with emits]
  end.

Ltac prove_emits := repeat emits_step.

Lemma emits_JSON_parse P w v : emits P (JSON_parse w v).
Proof. unfold JSON_parse. prove_emits. Qed.

Lemma emits_first_content P w v : emits P (first_content w v).
Proof. unfold first_content. prove_emits. Qed.

Lemma emits_log_request P w : emits P (log_request w).
Proof. unfold log_request. prove_emits. Qed.

Lemma emits_rethrow {A} P w e : emits P (@rethrow w A e).
Proof. unfold rethrow. prove_emits. Qed.

#[export] Hint Resolve emits_JSON_parse emits_first_content emits_log_request
  emits_rethrow : emits.

Lemma expected_init_call w : expected_call w (init_call w).
Proof.
  unfold init_call. destruct (endpoint_valid w) eqn:E; simpl; rewrite E; auto.
Qed.

Lemma emits_init_unless_any_client w : emits (expected_call w) (init_unless_any_client w).
Proof.
  unfold init_unless_any_client. apply emits_bind; [apply emits_get_this | intros t].
  destruct (negb (is_some (client t)) && negb (is_some (customHttpClient t)));
    [apply emits_init, expected_init_call | apply emits_ret].
Qed.

Lemma emits_init_unless_vendor_client w :
  emits (expected_call w) (init_unless_vendor_client w).
Proof.
  unfold init_unless_vendor_client. apply emits_bind; [apply emits_get_this | intros t].
  destruct (negb (is_some (client t)));
    [apply emits_init, expected_init_call | apply emits_ret].
Qed.

(** A guard followed by the reading of the fields and a computation that
    uses them. *)
Lemma guarded_emits {A} P (guard : M unit) (rest : AiService -> M A) s :
  emits P guard ->
  emits P (rest (this (snd (guard s)))) ->
  exists l,
    calls (snd (bind guard (fun _ => bind get_this rest) s)) = (calls s ++ l)%list
    /\ Forall P l.
Proof.
  intros Hg Hr. unfold bind, get_this.
  destruct (Hg s) as (l & Hl & HP).
  destruct (guard s) as [[[] | e] s']; simpl in *.
  - destruct (Hr s') as (l' & Hl' & HP').
    exists (l ++ l')%list. rewrite Hl', Hl, app_assoc. split; [reflexivity |].
    apply Forall_app. now split.
  - now exists l.
Qed.

Lemma any_client_guard_initialises w s :
  this s = fresh \/ this s = init_fields w fresh ->
  this (snd (init_unless_any_client w s)) = init_fields w fresh.
Proof.
  intros [H | H]; rewrite init_unless_any_client_this, H.
  - reflexivity.
  - now rewrite has_handle_init_fields.
Qed.

Lemma vendor_client_guard_initialises w s :
  this s = fresh \/ this s = init_fields w fresh ->
  this (snd (init_unless_vendor_client w s)) = init_fields w fresh.
Proof.
  intros [H | H]; rewrite init_unless_vendor_client_this, H.
  - reflexivity.
  - destruct (is_some (client (init_fields w fresh))); [reflexivity | apply init_fields_again].
Qed.

(** Side conditions of [expected_call] on the requests and vendor calls of
    an initialised service. *)
Ltac expected :=
  match goal with
  | E : endpoint_valid ?w = _ |- expected_call ?w _ =>
      simpl; rewrite E; repeat split; reflexivity
  end.

Lemma perform_emits w op s :
  this s = fresh \/ this s = init_fields w fresh ->
  exists l,
    calls (snd (perform w op s)) = (calls s ++ l)%list /\ Forall (expected_call w) l.
Proof.
  intros Hs. destruct op as [payload user | payload user | payload user | user]; simpl.
  - unfold chat. apply guarded_emits; [apply emits_init_unless_any_client |].
    rewrite (any_client_guard_initialises w s Hs). unfold init_fields.
    destruct (endpoint_valid w) eqn:E; simpl; prove_emits; expected.
  - unfold applySuggestion. apply guarded_emits; [apply emits_init_unless_any_client |].
    rewrite (any_client_guard_initialises w s Hs). unfold init_fields.
    destruct (endpoint_valid w) eqn:E; simpl; prove_emits; expected.
  - unfold askAi. apply guarded_emits; [apply emits_init_unless_any_client |].
    rewrite (any_client_guard_initialises w s Hs). unfold init_fields.
    destruct (endpoint_valid w) eqn:E; simpl; prove_emits; expected.
  - unfold createFreeAiCredits. apply guarded_emits; [apply emits_init_unless_vendor_client |].
    rewrite (vendor_client_guard_initialises w s Hs). unfold init_fields.
    destruct (endpoint_valid w) eqn:E; simpl; prove_emits; expected.
Qed.

Lemma run_emits w ops :
  forall s,
    this s = fresh \/ this s = init_fields w fresh ->
    Forall (expected_call w) (calls s) ->
    Forall (expected_call w) (calls (run w ops s)).
Proof.
  induction ops as [| op rest IH]; intros s Hs Hc; simpl.
  - assumption.
  - destruct (perform_emits w op s Hs) as (l & Hl & HP).
    apply IH.
    + right. destruct Hs as [Hs | Hs];
        [now apply perform_start | now apply perform_initialised].
    + rewrite Hl. apply Forall_app. now split.
Qed.

(** X12.  Over any sequence of operations on a new service, every call to a
    backend is one the configuration accounts for.  Under a usable endpoint
    the service only builds the HTTP client of that endpoint and posts
    through it, always to /v1/chat/completions, with [stream] false and with
    the configured model or, failing that, "gpt-3.5-turbo"; it never builds
    or calls the vendor client.  Without a usable endpoint it only builds
    the vendor client and calls its methods; it never builds an HTTP client
    and never posts. *)
Theorem every_call_is_expected (w : World) (ops : list Operation) :
  Forall (expected_call w) (calls (run w ops start)).
Proof.
  apply run_emits; [now left | constructor].
Qed.

(** ** The configuration of the direct client *)

Lemma truthy_str_some o : truthy_str o = true -> exists v, o = Some v /\ nonempty v = true.
Proof. destruct o as [v |]; simpl; [now exists v | discriminate]. Qed.

(** X13.  Under a usable endpoint the HTTP client that [init] stores is
    bound to the resolved base URL and authenticates with the resolved API
    key, both non-empty: its Authorization header is "Bearer " followed by
    that key, never by an empty or undefined one.  It also declares JSON
    content, identifies itself as n8n with the version, and times out after
    30 seconds. *)
Theorem direct_client_carries_credentials (w : World) (s : State) :
  endpoint_valid w = true ->
  exists url key http,
    resolved_baseUrl w = Some url /\ nonempty url = true
    /\ resolved_apiKey w = Some key /\ nonempty key = true
    /\ customHttpClient (this (snd (init w s))) = Some http
    /\ Axios.baseURL http = Some url
    /\ header "Authorization" (Axios.headers http) = Some ("Bearer " ++ key)
    /\ header "Content-Type" (Axios.headers http) = Some "application/json"
    /\ header "User-Agent" (Axios.headers http) = Some ("n8n/" ++ N8N_VERSION w)
    /\ Axios.timeout http = 30000.
Proof.
  intros Hv. pose proof Hv as Hv'. unfold endpoint_valid in Hv'.
  apply andb_prop in Hv' as [Hu Hk].
  destruct (truthy_str_some _ Hu) as (url & Eu & Nu).
  destruct (truthy_str_some _ Hk) as (key & Ek & Nk).
  exists url, key, (direct_client w).
  rewrite init_this. unfold init_fields. rewrite Hv.
  unfold direct_client, custom_config. rewrite Eu, Ek. simpl.
  repeat split; assumption || reflexivity.
Qed.

Lemma direct_client_carries_credentials_witness :
  endpoint_valid Sample.failing = true
  /\ exists url key http,
       resolved_baseUrl Sample.failing = Some url /\ nonempty url = true
       /\ resolved_apiKey Sample.failing = Some key /\ nonempty key = true
       /\ customHttpClient (this (snd (init Sample.failing start))) = Some http
       /\ Axios.baseURL http = Some url
       /\ header "Authorization" (Axios.headers http) = Some ("Bearer " ++ key)
       /\ header "Content-Type" (Axios.headers http) = Some "application/json"
       /\ header "User-Agent" (Axios.headers http)
          = Some ("n8n/" ++ N8N_VERSION Sample.failing)
       /\ Axios.timeout http = 30000.
Proof.
  split; [reflexivity |].
  apply (direct_client_carries_credentials Sample.failing start). reflexivity.
Defined.

Lemma or_str_set a b : nonempty a = true -> or_str a b = Some a.
Proof. intros H. unfold or_str. now rewrite H. Qed.

(** X14.  The environment is a fallback only: when the configuration sets
    the base URL, the API key and the model, the environment variables have
    no effect on the backend [init] selects, on the client it builds and
    stores, or on the model named in requests. *)
Theorem environment_is_only_a_fallback (w : World) (s : State) (e : string -> option string) :
  nonempty (AiAssistantConfig.baseUrl (aiAssistant (globalConfig w))) = true ->
  nonempty (AiAssistantConfig.apiKey (aiAssistant (globalConfig w))) = true ->
  nonempty (AiAssistantConfig.model (aiAssistant (globalConfig w))) = true ->
  this (snd (init (with_env e w) s)) = this (snd (init w s))
  /\ calls (snd (init (with_env e w) s)) = calls (snd (init w s))
  /\ request_model (with_env e w) = request_model w
  /\ mode (this (snd (init w s))) = Some DirectEndpoint.
Proof.
  intros Hu Hk Hm.
  assert (Eu : forall w', globalConfig w' = globalConfig w ->
                          resolved_baseUrl w'
                          = Some (AiAssistantConfig.baseUrl (aiAssistant (globalConfig w)))).
  { intros w' E. unfold resolved_baseUrl. rewrite E. now apply or_str_set. }
  assert (Ek : forall w', globalConfig w' = globalConfig w ->
                          resolved_apiKey w'
                          = Some (AiAssistantConfig.apiKey (aiAssistant (globalConfig w)))).
  { intros w' E. unfold resolved_apiKey. rewrite E. now apply or_str_set. }
  assert (Em : forall w', globalConfig w' = globalConfig w ->
                          resolved_model w'
                          = Some (AiAssistantConfig.model (aiAssistant (globalConfig w)))).
  { intros w' E. unfold resolved_model. rewrite E. now apply or_str_set. }
  assert (Ev : forall w', globalConfig w' = globalConfig w -> endpoint_valid w' = true).
  { intros w' E. unfold endpoint_valid. rewrite (Eu w' E), (Ek w' E). simpl.
    now rewrite Hu, Hk. }
  assert (Ed : direct_client (with_env e w) = direct_client w).
  { unfold direct_client, custom_config.
    rewrite (Eu (with_env e w) eq_refl), (Ek (with_env e w) eq_refl),
      (Em (with_env e w) eq_refl), (Eu w eq_refl), (Ek w eq_refl), (Em w eq_refl).
    reflexivity. }
  repeat split.
  - rewrite !init_this. unfold init_fields.
    rewrite (Ev (with_env e w) eq_refl), (Ev w eq_refl), Ed. reflexivity.
  - rewrite !init_calls. unfold init_call.
    rewrite (Ev (with_env e w) eq_refl), (Ev w eq_refl), Ed. reflexivity.
  - unfold request_model.
    rewrite (Em (with_env e w) eq_refl), (Em w eq_refl). reflexivity.
  - rewrite init_this. unfold init_fields. rewrite (Ev w eq_refl). reflexivity.
Qed.

Lemma environment_is_only_a_fallback_witness :
  nonempty (AiAssistantConfig.baseUrl (aiAssistant (globalConfig Sample.failing))) = true
  /\ nonempty (AiAssistantConfig.apiKey (aiAssistant (globalConfig Sample.failing))) = true
  /\ nonempty (AiAssistantConfig.model (aiAssistant (globalConfig Sample.failing))) = true
  /\ this (snd (init (with_env (fun _ => Some "other") Sample.failing) start))
     = this (snd (init Sample.failing start))
  /\ calls (snd (init (with_env (fun _ => Some "other") Sample.failing) start))
     = calls (snd (init Sample.failing start))
  /\ request_model (with_env (fun _ => Some "other") Sample.failing)
     = request_model Sample.failing
  /\ mode (this (snd (init Sample.failing start))) = Some DirectEndpoint.
Proof.
  split; [reflexivity |]. split; [reflexivity |]. split; [reflexivity |].
  apply (environment_is_only_a_fallback Sample.failing start (fun _ => Some "other"));
    reflexivity.
Defined.

(** X15.  Every run of [init], in either branch, writes the whole
    aiAssistant configuration to the console, and with it the configured API
    key in clear. *)
Theorem init_logs_the_api_key (w : World) (s : State) :
  In (to_stdout,
      [JStr "🔧 AI Service init - globalConfig.aiAssistant:";
       JObj [("baseUrl", JStr (AiAssistantConfig.baseUrl (aiAssistant (globalConfig w))));
             ("apiKey", JStr (AiAssistantConfig.apiKey (aiAssistant (globalConfig w))));
             ("model", JStr (AiAssistantConfig.model (aiAssistant (globalConfig w))))]])
     (console (snd (init w s))).
Proof.
  unfold init. simpl.
  destruct (isAiAssistantEnabled (licenseService w));
    destruct (truthy_str (resolved_baseUrl w) && truthy_str (resolved_apiKey w));
    simpl; repeat (apply in_or_app; first [right; left; reflexivity | left]).
Qed.

Lemma parse_object_tag : JSON.parse "[object Object]" = None.
Proof. vm_compute. reflexivity. Qed.

(** X16.  The suggestion must come as JSON text.  In DirectEndpoint mode,
    when the content of the response is itself an object (one without a
    property [toString]) and not a string, applySuggestion does not take it
    for the parameters: the object is converted to the text
    "[object Object]", which JSON.parse rejects, and applySuggestion throws
    the error of the service. *)
Theorem applySuggestion_rejects_object_content (w : World) (payload user : JsObject)
    (s : State) (http : Axios.Instance) (response : Axios.Response) (props : JsObject) :
  mode (this s) = Some DirectEndpoint ->
  customHttpClient (this s) = Some http ->
  backend w (calls s) http path (applySuggestion_request w payload user) = Return response ->
  content_of (Axios.data response) = JObj props ->
  Js.has "toString" props = false ->
  fst (applySuggestion w payload user s)
  = Throw (ErrorObject "Error"
             ("Custom AI service error: Unknown - "
              ++ invalid_json (engine w) "[object Object]")).
Proof.
  intros Hm Hh Hb Hc Ht.
  rewrite (applySuggestion_direct w payload user s http response Hm Hh Hb)
    by (apply truthy_content_not_nullish; now rewrite Hc).
  rewrite Hc, or_truthy by reflexivity.
  apply syntax_error_is_wrapped.
  unfold JSON_parse, bind, template. cbn [Js.to_string]. rewrite Ht.
  unfold ret. now rewrite parse_object_tag.
Qed.

Lemma applySuggestion_rejects_object_content_witness :
  mode (this (Sample.used (Sample.answering (JObj [("a", JNum 1)])))) = Some DirectEndpoint
  /\ customHttpClient (this (Sample.used (Sample.answering (JObj [("a", JNum 1)]))))
     = Some (direct_client (Sample.answering (JObj [("a", JNum 1)])))
  /\ content_of (Axios.data (Sample.completion (JObj [("a", JNum 1)]))) = JObj [("a", JNum 1)]
  /\ Js.has "toString" [("a", JNum 1)] = false
  /\ fst (applySuggestion (Sample.answering (JObj [("a", JNum 1)]))
            Sample.request Sample.alice
            (Sample.used (Sample.answering (JObj [("a", JNum 1)]))))
     = Throw (ErrorObject "Error"
                ("Custom AI service error: Unknown - "
                 ++ invalid_json (engine (Sample.answering (JObj [("a", JNum 1)])))
                      "[object Object]")).
Proof.
  repeat (split; [reflexivity |]).
  apply (applySuggestion_rejects_object_content
           (Sample.answering (JObj [("a", JNum 1)])) Sample.request Sample.alice
           (Sample.used (Sample.answering (JObj [("a", JNum 1)])))
           (direct_client (Sample.answering (JObj [("a", JNum 1)])))
           (Sample.completion (JObj [("a", JNum 1)])) [("a", JNum 1)]);
    reflexivity.
Defined.

(** X17.  Out of the box, with the three settings at the defaults of
    [AiAssistantConfig] and no base URL in the environment (whatever the
    other variables hold), [init] selects the vendor backend: it builds the
    vendor client with an empty base URL, from the licence certificate, the
    consumer id, the version and the logging level, and leaves the HTTP
    client field as it was. *)
Theorem default_configuration_selects_vendor (w : World) (s : State) :
  aiAssistant (globalConfig w) = AiAssistantConfig.defaults ->
  env w "N8N_AI_ASSISTANT_BASE_URL" = None ->
  endpoint_valid w = false
  /\ client (this (snd (init w s)))
     = Some {| AiAssistantClient.licenseCert := loadCertStr (licenseService w);
               AiAssistantClient.consumerId := getConsumerId (licenseService w);
               AiAssistantClient.n8nVersion := N8N_VERSION w;
               AiAssistantClient.baseUrl := EmptyString;
               AiAssistantClient.logLevel := logging_level (globalConfig w) |}
  /\ customHttpClient (this (snd (init w s))) = customHttpClient (this s)
  /\ constructions (calls (snd (init w s))) = S (constructions (calls s)).
Proof.
  intros Hc He.
  assert (Eu : resolved_baseUrl w = None).
  { unfold resolved_baseUrl. rewrite Hc, He. reflexivity. }
  assert (Hv : endpoint_valid w = false).
  { unfold endpoint_valid. rewrite Eu. reflexivity. }
  split; [exact Hv |].
  rewrite init_this, init_constructions. unfold init_fields. rewrite Hv. simpl.
  unfold vendor_client, vendor_options. rewrite Eu. simpl. auto.
Qed.

Lemma default_configuration_selects_vendor_witness :
  aiAssistant (globalConfig Sample.unconfigured) = AiAssistantConfig.defaults
  /\ env Sample.unconfigured "N8N_AI_ASSISTANT_BASE_URL" = None
  /\ endpoint_valid Sample.unconfigured = false
  /\ client (this (snd (init Sample.unconfigured start)))
     = Some {| AiAssistantClient.licenseCert := loadCertStr (licenseService Sample.unconfigured);
               AiAssistantClient.consumerId := getConsumerId (licenseService Sample.unconfigured);
               AiAssistantClient.n8nVersion := N8N_VERSION Sample.unconfigured;
               AiAssistantClient.baseUrl := EmptyString;
               AiAssistantClient.logLevel := logging_level (globalConfig Sample.unconfigured) |}
  /\ customHttpClient (this (snd (init Sample.unconfigured start)))
     = customHttpClient (this start)
  /\ constructions (calls (snd (init Sample.unconfigured start)))
     = S (constructions (calls start)).
Proof.
  split; [reflexivity |]. split; [reflexivity |].
  apply (default_configuration_selects_vendor Sample.unconfigured start); reflexivity.
Defined.

(** X18.  The environment alone can configure the endpoint.  With the
    settings of [AiAssistantConfig] at their defaults and the base URL and
    the API key given, non-empty, by the environment variables, [init]
    selects the direct endpoint: the client it stores is bound to the URL of
    the environment and authenticates with the key of the environment; it
    names the model of N8N_AI_MODEL in X-Model when that variable is set and
    non-empty, and requests then carry that model. *)
Theorem environment_configures_the_endpoint (w : World) (s : State) (url key : string) :
  aiAssistant (globalConfig w) = AiAssistantConfig.defaults ->
  env w "N8N_AI_ASSISTANT_BASE_URL" = Some url ->
  env w "N8N_AI_ASSISTANT_API_KEY" = Some key ->
  nonempty url = true ->
  nonempty key = true ->
  exists http,
    customHttpClient (this (snd (init w s))) = Some http
    /\ useCustomEndpoint (this (snd (init w s))) = true
    /\ Axios.baseURL http = Some url
    /\ header "Authorization" (Axios.headers http) = Some ("Bearer " ++ key)
    /\ header "X-Model" (Axios.headers http)
       = (if truthy_str (env w "N8N_AI_MODEL") then env w "N8N_AI_MODEL" else None)
    /\ request_model w
       = (match env w "N8N_AI_MODEL" with
          | Some m => if nonempty m then m else "gpt-3.5-turbo"
          | None => "gpt-3.5-turbo"
          end).
Proof.
  intros Hc Eu Ek Nu Nk.
  assert (Ru : resolved_baseUrl w = Some url).
  { unfold resolved_baseUrl. rewrite Hc, Eu. reflexivity. }
  assert (Rk : resolved_apiKey w = Some key).
  { unfold resolved_apiKey. rewrite Hc, Ek. reflexivity. }
  assert (Rm : resolved_model w = env w "N8N_AI_MODEL").
  { unfold resolved_model. rewrite Hc. reflexivity. }
  assert (Hv : endpoint_valid w = true).
  { unfold endpoint_valid. rewrite Ru, Rk. simpl. now rewrite Nu, Nk. }
  exists (direct_client w).
  rewrite init_this. unfold init_fields. rewrite Hv. simpl.
  unfold direct_client, custom_config, request_model, spread_model.
  rewrite Ru, Rk, Rm. simpl.
  repeat split; try reflexivity.
  destruct (env w "N8N_AI_MODEL") as [m |]; simpl; [| reflexivity].
  destruct (nonempty m); reflexivity.
Qed.

Lemma environment_configures_the_endpoint_witness :
  aiAssistant (globalConfig (with_env (fun _ => Some "from-env") Sample.unconfigured))
  = AiAssistantConfig.defaults
  /\ env (with_env (fun _ => Some "from-env") Sample.unconfigured) "N8N_AI_ASSISTANT_BASE_URL"
     = Some "from-env"
  /\ env (with_env (fun _ => Some "from-env") Sample.unconfigured) "N8N_AI_ASSISTANT_API_KEY"
     = Some "from-env"
  /\ nonempty "from-env" = true
  /\ exists http,
       customHttpClient
         (this (snd (init (with_env (fun _ => Some "from-env") Sample.unconfigured) start)))
       = Some http
       /\ useCustomEndpoint
            (this (snd (init (with_env (fun _ => Some "from-env") Sample.unconfigured) start)))
          = true
       /\ Axios.baseURL http = Some "from-env"
       /\ header "Authorization" (Axios.headers http) = Some ("Bearer " ++ "from-env")
       /\ header "X-Model" (Axios.headers http)
          = (if truthy_str
                  (env (with_env (fun _ => Some "from-env") Sample.unconfigured) "N8N_AI_MODEL")
             then env (with_env (fun _ => Some "from-env") Sample.unconfigured) "N8N_AI_MODEL"
             else None)
       /\ request_model (with_env (fun _ => Some "from-env") Sample.unconfigured)
          = (match env (with_env (fun _ => Some "from-env") Sample.unconfigured)
                     "N8N_AI_MODEL" with
             | Some m => if nonempty m then m else "gpt-3.5-turbo"
             | None => "gpt-3.5-turbo"
             end).
Proof.
  split; [reflexivity |]. split; [reflexivity |]. split; [reflexivity |].
  split; [reflexivity |].
  apply (environment_configures_the_endpoint
           (with_env (fun _ => Some "from-env") Sample.unconfigured) start
           "from-env" "from-env");
    reflexivity.
Defined.
